(** * infra_validation_engine.core: checks, executors and stages

    A shallow embedding of [infra_validation_engine/core/__init__.py] and the
    properties of its execution and aggregation model.

    Conventions of the embedding.
    - A Python object is the record of its instance attributes; the methods a
      concrete subclass has to supply ([run], [fail], [pre_condition],
      [register_tests]) are the fields of a separate class record.
    - Methods that assign attributes, call overridable methods and handle
      exceptions are written in a state-and-exception monad [M] whose trace
      records every logger call, every call of an overridable method and the
      state after every assignment.
    - The methods of a concrete check read the whole object and write the
      attributes the base class keeps for them ([rc], [err], [out], [message],
      [warn]); [report] and [exit_code] are written by the engine only.
    - [pre_condition] reads the executor and returns or raises; what it
      gathers goes to attributes of the concrete subclass, which the base
      class never reads.
    - The objects registered in a group are distinct objects, so a list of
      objects is a list of their records.
    - The source is Python 2: every exception has a [message] attribute.
      [except Exception] handles every exception of the model: interpreter
      exits and keyboard interrupts, which Python keeps outside [Exception],
      are not modelled. *)

From Stdlib Require Import ZArith.
From stdpp Require Import gmap strings list.

Open Scope string_scope.
Open Scope Z_scope.
Open Scope list_scope.
Open Scope stdpp_scope.

(** ** Exceptions, outcomes, traces *)

(** What the engine reads from a caught exception [ex]. *)
Record Exception := mkException {
  type_repr : string;   (* str(type(ex)), as formatted into log lines *)
  ex_message : string;  (* ex.message *)
  format_exc : string;  (* traceback.format_exc() inside the handler of ex *)
  is_PreConditionNotSatisfiedError : bool
                        (* isinstance(ex, PreConditionNotSatisfiedError) *)
}.

Inductive Outcome (A : Type) : Type :=
| Returned (a : A)
| Raised (ex : Exception).
Arguments Returned {A} a.
Arguments Raised {A} ex.

Inductive Level := DEBUG | INFO | WARNING | ERROR | API.

Inductive Method := run_method | fail_method | pre_condition_method.

(** A per-check report: the dict with keys [name], [description], [result]
    and, when set, [message], [error], [trace]. *)
Abbreviation Report := (gmap string string).

(** Values of an executor's report dict. *)
Inductive Value :=
| VStr (s : string)
| VReports (l : list Report).

(** The argument of a logger call: a formatted line, or the structure handed
    to [json.dumps]. *)
Inductive Payload :=
| Text (s : string)
| JsonExecutor (r : gmap string Value)
| JsonReports (l : list Report).

Inductive Event (S : Type) : Type :=
| Logged (lvl : Level) (p : Payload) (exc_info : bool)
| Called (m : Method)
| Stored (s : S).
Arguments Logged {S} lvl p exc_info.
Arguments Called {S} m.
Arguments Stored {S} s.

Definition is_call {S} (m : Method) (e : Event S) : bool :=
  match e, m with
  | Called run_method, run_method => true
  | Called fail_method, fail_method => true
  | Called pre_condition_method, pre_condition_method => true
  | _, _ => false
  end.

(** How often method [m] is called in a trace. *)
Definition calls {S} (m : Method) (tr : list (Event S)) : nat :=
  length (List.filter (is_call m) tr).

(** The states a trace passes through, in order. *)
Fixpoint stores {S} (tr : list (Event S)) : list S :=
  match tr with
  | [] => []
  | Stored s :: tr' => s :: stores tr'
  | _ :: tr' => stores tr'
  end.

(** ** The monad *)

Section Monad.
Context {S : Type}.

Definition M (A : Type) : Type := S -> Outcome A * S * list (Event S).

Definition ret {A} (a : A) : M A := fun s => (Returned a, s, []).

Definition bind {A B} (m : M A) (k : A -> M B) : M B := fun s =>
  match m s with
  | (Returned a, s1, tr1) =>
      let '(r, s2, tr2) := k a s1 in (r, s2, tr1 ++ tr2)
  | (Raised ex, s1, tr1) => (Raised ex, s1, tr1)
  end.

Definition get : M S := fun s => (Returned s, s, []).

(** An assignment to an attribute or a local variable. *)
Definition assign (f : S -> S) : M unit := fun s =>
  (Returned tt, f s, [Stored (f s)]).

Definition raise {A} (ex : Exception) : M A := fun s => (Raised ex, s, []).

(** [try: body except <class> as ex: handler ex], where [handles ex] tells
    whether [ex] is an instance of the class. *)
Definition try_except {A} (body : M A) (handles : Exception -> bool)
    (handler : Exception -> M A) : M A := fun s =>
  match body s with
  | (Raised ex, s1, tr1) =>
      if handles ex
      then let '(r, s2, tr2) := handler ex s1 in (r, s2, tr1 ++ tr2)
      else (Raised ex, s1, tr1)
  | done => done
  end.

Definition log (lvl : Level) (msg : string) : M unit := fun s =>
  (Returned tt, s, [Logged lvl (Text msg) false]).

(** A logger call with [exc_info=True]. *)
Definition log_exc (lvl : Level) (msg : string) : M unit := fun s =>
  (Returned tt, s, [Logged lvl (Text msg) true]).

Definition log_json (lvl : Level) (p : Payload) : M unit := fun s =>
  (Returned tt, s, [Logged lvl p false]).

(** A call of an overridable method: it returns or raises, and leaves the
    object in the state [put s w], where [w] is what the method wrote. *)
Definition call {A W} (m : Method) (impl : S -> Outcome A * W)
    (put : S -> W -> S) : M A := fun s =>
  let '(r, w) := impl s in (r, put s w, [Called m; Stored (put s w)]).
End Monad.
Arguments M : clear implicits.

Notation "'let*' x ':=' m 'in' k" := (bind m (fun x => k))
  (at level 10, x name, m at level 100, k at level 200).
Notation "m ';;' k" := (bind m (fun _ => k))
  (at level 100, k at level 200, right associativity).

Definition Exception_class (ex : Exception) : bool := true.

(** [str(x)] for an attribute that is a string or [None]. *)
Definition str (x : option string) : string :=
  match x with Some s => s | None => "None" end.

(** ** InfraTest *)

Module InfraTest.

(** The attributes a concrete check writes. *)
Record Findings := mkFindings {
  rc : Z;
  err : option string;
  out : option string;
  message : option string;
  warn : bool
}.

Record t := mkInfraTest {
  host : string;
  name : string;
  description : string;
  fqdn : string;
  findings : Findings;
  report : Report;
  exit_code : Z
}.

(** The abstract methods, as a concrete subclass implements them. *)
Record Class := mkClass {
  run : t -> Outcome bool * Findings;
  fail : t -> Outcome unit * Findings
}.

(** An object: its class and its attributes. *)
Record instance := mkInstance {
  cls : Class;
  attrs : t
}.

Definition __init__ (name description host fqdn : string) : t :=
  {| host := host; name := name; description := description; fqdn := fqdn;
     findings := {| rc := -1; err := None; out := None;
                    message := None; warn := false |};
     report := <["result" := "fail"]>
                 (<["description" := description]> {["name" := name]});
     exit_code := 0 |}.

Definition set_findings (self : t) (f : Findings) : t :=
  {| host := host self; name := name self; description := description self;
     fqdn := fqdn self; findings := f; report := report self;
     exit_code := exit_code self |}.

Definition set_exit_code (c : Z) : M t unit :=
  assign (fun self =>
    {| host := host self; name := name self;
       description := description self; fqdn := fqdn self;
       findings := findings self; report := report self; exit_code := c |}).

Definition set_report (k v : string) : M t unit :=
  assign (fun self =>
    {| host := host self; name := name self;
       description := description self; fqdn := fqdn self;
       findings := findings self; report := <[k := v]> (report self);
       exit_code := exit_code self |}).

Definition execute (cls : Class) : M t unit :=
  let* self := get in
  let log_str := name self +:+ " on " +:+ fqdn self +:+ ":" in
  log INFO (log_str +:+ " running") ;;
  try_except
    (log INFO (log_str +:+ " passed!") ;;
     let* passed := call run_method (run cls) set_findings in
     if passed : bool then
       (let* self := get in
        if warn (findings self) then
          set_exit_code 3 ;;
          log WARNING (log_str +:+ " " +:+ str (message (findings self)))
        else ret tt) ;;
       set_report "result" "pass"
     else
       try_except
         (set_exit_code 1 ;;
          call fail_method (fail cls) set_findings)
         Exception_class
         (fun ex =>
            log ERROR (name self +:+ " failed on " +:+ fqdn self +:+ "! "
                       +:+ ex_message ex) ;;
            log_exc INFO (log_str +:+ " " +:+ type_repr ex
                          +:+ " occurred!!") ;;
            set_report "error" (ex_message ex) ;;
            set_report "trace" (format_exc ex)))
    Exception_class
    (fun ex =>
       set_exit_code 1 ;;
       log ERROR (log_str +:+ " Could not run " +:+ name self +:+ "!") ;;
       log_exc INFO (log_str +:+ " " +:+ type_repr ex +:+ " occurred for "
                     +:+ name self) ;;
       set_report "result" "exec_fail" ;;
       set_report "error" (ex_message ex) ;;
       set_report "trace" (format_exc ex)) ;;
  let* self := get in
  match message (findings self) with
  | Some msg => log INFO msg ;; set_report "message" msg
  | None => ret tt
  end.

End InfraTest.

(** [', '.join(l)] *)
Definition join (l : list string) : string := String.concat ", " l.

(** ** Executor *)

Module Executor.

Record t := mkExecutor {
  name : string;
  report : gmap string Value;
  infra_tests : list InfraTest.instance;
  exit_code : Z;
  hard_error_pre_condition : bool
}.

(** The abstract method, as a concrete subclass implements it. *)
Record Class := mkClass {
  pre_condition : t -> Outcome unit
}.

Definition __init__ (name : string) : t :=
  {| name := name;
     report := {["executor_name" := VStr name]};
     infra_tests := [];
     exit_code := 0;
     hard_error_pre_condition := true |}.

Definition register_infra_test (infra_test : InfraTest.instance)
    (self : t) : t :=
  {| name := name self; report := report self;
     infra_tests := infra_tests self ++ [infra_test];
     exit_code := exit_code self;
     hard_error_pre_condition := hard_error_pre_condition self |}.

Definition set_exit_code (c : Z) : M t unit :=
  assign (fun self =>
    {| name := name self; report := report self;
       infra_tests := infra_tests self; exit_code := c;
       hard_error_pre_condition := hard_error_pre_condition self |}).

Definition set_report (k : string) (v : Value) : M t unit :=
  assign (fun self =>
    {| name := name self; report := <[k := v]> (report self);
       infra_tests := infra_tests self; exit_code := exit_code self;
       hard_error_pre_condition := hard_error_pre_condition self |}).

Definition test_name (x : InfraTest.instance) : string :=
  InfraTest.name (InfraTest.attrs x).

Definition run : M t unit :=
  let* self := get in
  log INFO ("Execution infrastructure tests for " +:+ name self) ;;
  let test_name_csv := join (test_name <$> infra_tests self) in
  log INFO ("Executor " +:+ name self
            +:+ " has the following tests registered: " +:+ test_name_csv).

Definition post_process : M t unit :=
  let* self := get in
  let test_reports :=
    (fun x => InfraTest.report (InfraTest.attrs x)) <$> infra_tests self in
  set_report "reports" (VReports test_reports) ;;
  let* self := get in
  log_json API (JsonExecutor (report self)) ;;
  let exit_codes :=
    (fun x => InfraTest.exit_code (InfraTest.attrs x))
      <$> infra_tests self in
  if decide (1 ∈ exit_codes) then
    set_exit_code 1 ;;
    set_report "result" (VStr "fail")
  else if decide (3 ∈ exit_codes) then
    set_exit_code 3 ;;
    set_report "result" (VStr "warning")
  else
    set_report "result" (VStr "pass").

(** [execute] leaves through the [return] of the handler ([true]) or falls
    through to the statements after the [try] ([false]). *)
Definition execute (cls : Class) : M t unit :=
  let* returned :=
    try_except
      (call pre_condition_method
         (fun self => (pre_condition cls self, tt)) (fun self _ => self) ;;
       ret false)
      is_PreConditionNotSatisfiedError
      (fun err =>
         let* self := get in
         if hard_error_pre_condition self then
           log ERROR
             ("The pre condition check for Executor " +:+ name self
              +:+ " was not satisfied. Therefore, the execution of the "
              +:+ "following tests is being skipped: "
              +:+ join ((fun x => test_name x +:+ " on "
                           +:+ InfraTest.fqdn (InfraTest.attrs x))
                        <$> infra_tests self)) ;;
           log_exc INFO ("Exception info: " +:+ ex_message err) ;;
           set_report "result" (VStr "exec_fail") ;;
           set_report "error" (VStr (ex_message err)) ;;
           set_report "trace" (VStr (format_exc err)) ;;
           ret true
         else ret false) in
  if returned : bool then ret tt
  else
    run ;;
    post_process.

End Executor.

(** ** Stage *)

Module Stage.

Record t := mkStage {
  name : string;
  infra_tests : list InfraTest.instance;
  config_master_host : string;
  lightweight_component_hosts : list string
}.

(** The abstract method: the tests a concrete stage appends to
    [self.infra_tests]. *)
Record Class := mkClass {
  register_tests : t -> list InfraTest.instance
}.

Definition __init__ (cls : Class) (name config_master_host : string)
    (lightweight_component_hosts : list string) : t :=
  let self :=
    {| name := name; infra_tests := [];
       config_master_host := config_master_host;
       lightweight_component_hosts := lightweight_component_hosts |} in
  {| name := name;
     infra_tests := infra_tests self ++ register_tests cls self;
     config_master_host := config_master_host;
     lightweight_component_hosts := lightweight_component_hosts |}.

(** The local variables of [execute] during one iteration of its loop;
    [test] holds the attributes of the object the loop variable is bound
    to. *)
Record Frame := mkFrame {
  exit_code : Z;
  reports : list Report;
  test : InfraTest.t;
  report : Report
}.

Definition set_exit_code (c : Z) : M Frame unit :=
  assign (fun f =>
    {| exit_code := c; reports := reports f; test := test f;
       report := report f |}).

Definition bind_report (r : Report) : M Frame unit :=
  assign (fun f =>
    {| exit_code := exit_code f; reports := reports f; test := test f;
       report := r |}).

Definition set_report (k v : string) : M Frame unit :=
  assign (fun f =>
    {| exit_code := exit_code f; reports := reports f; test := test f;
       report := <[k := v]> (report f) |}).

Definition append_report : M Frame unit :=
  assign (fun f =>
    {| exit_code := exit_code f; reports := reports f ++ [report f];
       test := test f; report := report f |}).

Definition set_test_findings (f : Frame) (w : InfraTest.Findings) : Frame :=
  {| exit_code := exit_code f; reports := reports f;
     test := InfraTest.set_findings (test f) w; report := report f |}.

(** The body of the loop of [execute], for an item of class [cls]. *)
Definition body (cls : InfraTest.Class) : M Frame unit :=
  let* f := get in
  let test_name := InfraTest.name (test f) in
  log INFO ("Running " +:+ test_name +:+ " on "
            +:+ InfraTest.fqdn (test f)) ;;
  bind_report (<["result" := "fail"]>
                 (<["description" := InfraTest.description (test f)]>
                    {["name" := test_name]})) ;;
  try_except
    (let* passed :=
       call run_method (fun f => InfraTest.run cls (test f))
         set_test_findings in
     if passed : bool then
       log INFO (test_name +:+ " passed!") ;;
       (let* f := get in
        if InfraTest.warn (InfraTest.findings (test f)) then
          set_exit_code 3 ;;
          log WARNING (str (InfraTest.message (InfraTest.findings (test f))))
        else ret tt) ;;
       set_report "result" "pass"
     else
       try_except
         (set_exit_code 1 ;;
          call fail_method (fun f => InfraTest.fail cls (test f))
            set_test_findings)
         Exception_class
         (fun ex =>
            log ERROR (test_name +:+ " failed! " +:+ ex_message ex) ;;
            log_exc INFO (type_repr ex +:+ " occurred for " +:+ test_name) ;;
            set_report "error" (ex_message ex) ;;
            set_report "trace" (format_exc ex)))
    Exception_class
    (fun ex =>
       set_exit_code 1 ;;
       log ERROR ("Could not run " +:+ test_name +:+ "!") ;;
       log_exc INFO (type_repr ex +:+ " occurred for " +:+ test_name) ;;
       set_report "result" "exec_fail" ;;
       set_report "error" (ex_message ex) ;;
       set_report "trace" (format_exc ex)) ;;
  let* f := get in
  match InfraTest.message (InfraTest.findings (test f)) with
  | Some msg => log INFO msg ;; set_report "message" msg
  | None => ret tt
  end ;;
  append_report.

(** One iteration: the loop variable is bound to [item]; [report] is bound
    by the first assignment of the body. *)
Definition iteration (item : InfraTest.instance) (exit_code : Z)
    (reports : list Report) : Outcome unit * Frame * list (Event Frame) :=
  body (InfraTest.cls item)
    {| exit_code := exit_code; reports := reports;
       test := InfraTest.attrs item; report := ∅ |}.

(** [for test in self.infra_tests: ...], from the given values of
    [exit_code] and [reports]; it yields their final values and the
    objects as the loop leaves them. *)
Fixpoint for_tests (items : list InfraTest.instance) (exit_code : Z)
    (reports : list Report)
    : Outcome (Z * list Report) * list InfraTest.instance
      * list (Event Frame) :=
  match items with
  | [] => (Returned (exit_code, reports), [], [])
  | item :: rest =>
      let '(r, f, tr) := iteration item exit_code reports in
      let item' := InfraTest.mkInstance (InfraTest.cls item) (test f) in
      match r with
      | Raised ex => (Raised ex, item' :: rest, tr)
      | Returned _ =>
          let '(r', rest', tr') :=
            for_tests rest (Stage.exit_code f) (Stage.reports f) in
          (r', item' :: rest', tr ++ tr')
      end
  end.

Definition execute (self : t)
    : Outcome Z * t * list (Event Frame) :=
  let test_name_csv :=
    join ((fun x => InfraTest.name (InfraTest.attrs x))
            <$> infra_tests self) in
  let tr0 : list (Event Frame) :=
    [Logged INFO (Text ("Execution infrastructure tests for "
                        +:+ name self)) false;
     Logged INFO (Text ("Stage " +:+ name self
                        +:+ " has the following tests registered: "
                        +:+ test_name_csv)) false] in
  let '(r, items, tr) := for_tests (infra_tests self) 0 [] in
  let self' :=
    {| name := name self; infra_tests := items;
       config_master_host := config_master_host self;
       lightweight_component_hosts := lightweight_component_hosts self |} in
  match r with
  | Raised ex => (Raised ex, self', tr0 ++ tr)
  | Returned (exit_code, reports) =>
      (Returned exit_code, self',
       tr0 ++ tr ++ [Logged API (JsonReports reports) false])
  end.

(** The per-check reports [execute] hands to [json.dumps]. *)
Fixpoint dumped (tr : list (Event Frame)) : option (list Report) :=
  match tr with
  | [] => None
  | Logged API (JsonReports l) _ :: tr' =>
      match dumped tr' with Some l' => Some l' | None => Some l end
  | _ :: tr' => dumped tr'
  end.

End Stage.

(** ** Reading the result of a monadic run *)

Definition outcome_of {S E A} (x : Outcome A * S * list E) : Outcome A :=
  x.1.1.
Definition state_of {S E A} (x : Outcome A * S * list E) : S := x.1.2.
Definition trace_of {S E A} (x : Outcome A * S * list E) : list E := x.2.

(** The report one iteration of the loop of [Stage.execute] builds for
    [item]. *)
Definition report_of (item : InfraTest.instance) : Report :=
  Stage.report (state_of (Stage.iteration item 0 [])).

Definition result_of (self : InfraTest.t) : option string :=
  InfraTest.report self !! "result".

(** A step of the [result] entry of a check's report: it stays, or it leaves
    [fail] for [pass] or [exec_fail]. *)
Definition result_step (a b : option string) : Prop :=
  b = a \/ (a = Some "fail" /\ (b = Some "pass" \/ b = Some "exec_fail")).

Fixpoint result_steps (a : option string) (l : list InfraTest.t) : Prop :=
  match l with
  | [] => True
  | s :: l' => result_step a (result_of s) /\ result_steps (result_of s) l'
  end.

(** The object [fail] is called on by [InfraTest.execute]: [run] has written
    [w] and the exit code has been assigned 1. *)
Definition about_to_fail (self : InfraTest.t) (w : InfraTest.Findings)
  : InfraTest.t :=
  {| InfraTest.host := InfraTest.host self;
     InfraTest.name := InfraTest.name self;
     InfraTest.description := InfraTest.description self;
     InfraTest.fqdn := InfraTest.fqdn self;
     InfraTest.findings := w;
     InfraTest.report := InfraTest.report self;
     InfraTest.exit_code := 1 |}.

Definition with_tests (self : Stage.t) (items : list InfraTest.instance)
  : Stage.t :=
  {| Stage.name := Stage.name self; Stage.infra_tests := items;
     Stage.config_master_host := Stage.config_master_host self;
     Stage.lightweight_component_hosts :=
       Stage.lightweight_component_hosts self |}.

(** An executor after construction and the registration of [items]. *)
Definition registered (name : string) (items : list InfraTest.instance)
  : Executor.t :=
  foldl (fun e x => Executor.register_infra_test x e)
    (Executor.__init__ name) items.

Definition documented (c : Z) : Prop := c = 0 \/ c = 1 \/ c = 3.

(** ** Sample classes and objects *)

Module Sample.

Definition boom : Exception :=
  {| type_repr := "<type 'exceptions.RuntimeError'>";
     ex_message := "connection refused";
     format_exc := "Traceback (most recent call last): ...";
     is_PreConditionNotSatisfiedError := false |}.

Definition unmet : Exception :=
  {| type_repr := "<class 'PreConditionNotSatisfiedError'>";
     ex_message := "site config not found";
     format_exc := "Traceback (most recent call last): ...";
     is_PreConditionNotSatisfiedError := true |}.

Definition keep {A} (a : A) (self : InfraTest.t)
  : Outcome A * InfraTest.Findings :=
  (Returned a, InfraTest.findings self).

Definition throw {A} (ex : Exception) (self : InfraTest.t)
  : Outcome A * InfraTest.Findings :=
  (Raised ex, InfraTest.findings self).

Definition warned : InfraTest.Findings :=
  {| InfraTest.rc := 0; InfraTest.err := None; InfraTest.out := None;
     InfraTest.message := Some "disk 80% full"; InfraTest.warn := true |}.

Definition passing := InfraTest.mkClass (keep true) (keep tt).
Definition warning :=
  InfraTest.mkClass (fun _ => (Returned true, warned)) (keep tt).
Definition failing := InfraTest.mkClass (keep false) (keep tt).
Definition failing_badly := InfraTest.mkClass (keep false) (throw boom).
Definition broken := InfraTest.mkClass (throw boom) (keep tt).

Definition fresh (name : string) : InfraTest.t :=
  InfraTest.__init__ name "a check" "node" "node.example.org".

Definition check (name : string) (cls : InfraTest.Class)
  : InfraTest.instance :=
  InfraTest.mkInstance cls (fresh name).

Definition stage (items : list InfraTest.instance) : Stage.t :=
  Stage.__init__ (Stage.mkClass (fun _ => items)) "stage" "cm" [].

Definition executor (items : list InfraTest.instance) : Executor.t :=
  registered "executor" items.

(** A check object as its own [execute] leaves it. *)
Definition executed (name : string) (cls : InfraTest.Class)
  : InfraTest.instance :=
  InfraTest.mkInstance cls (state_of (InfraTest.execute cls (fresh name))).

Definition satisfied := Executor.mkClass (fun _ => Returned tt).
Definition unsatisfied := Executor.mkClass (fun _ => Raised unmet).
Definition crashing := Executor.mkClass (fun _ => Raised boom).

End Sample.

(** ** Pool and the registering metaclasses *)

Module Pool.

Record t := mkPool {
  tests : list string;
  stages : list string
}.

(** The class attributes [tests = []] and [stages = []]. *)
Definition initial : t := {| tests := []; stages := [] |}.

Definition register_test (name : string) : M t unit :=
  assign (fun p => {| tests := tests p ++ [name]; stages := stages p |}) ;;
  log DEBUG ("Registered " +:+ name +:+ " in test pool").

Definition register_stage (name : string) : M t unit :=
  assign (fun p => {| tests := tests p; stages := stages p ++ [name] |}) ;;
  log DEBUG ("Registered " +:+ name +:+ " in test pool").

Definition get_all_tests : M t (list string) :=
  let* p := get in ret (tests p).

Definition get_all_stages : M t (list string) :=
  let* p := get in ret (stages p).

End Pool.

Module StageType.

(** [StageType.__init__(cls, name, bases, attrs)], run when a class with
    this metaclass is defined. *)
Definition __init__ (name : string) : M Pool.t unit :=
  Pool.register_stage name ;;
  log DEBUG ("Registering Stage " +:+ name).

End StageType.

Module InfraTestType.

Definition __init__ (name : string) : M Pool.t unit :=
  Pool.register_test name ;;
  log DEBUG ("Registering Test " +:+ name).

End InfraTestType.

(** The class definitions of a program, in the order the interpreter meets
    them: each is a test class or a stage class, with its name. *)
Inductive Kind := test_class | stage_class.

Definition define (d : Kind * string) : M Pool.t unit :=
  match d.1 with
  | test_class => InfraTestType.__init__ d.2
  | stage_class => StageType.__init__ d.2
  end.

Fixpoint define_all (ds : list (Kind * string)) : M Pool.t unit :=
  match ds with
  | [] => ret tt
  | d :: ds' => define d ;; define_all ds'
  end.

Definition names_of (k : Kind) (ds : list (Kind * string)) : list string :=
  snd <$> List.filter
            (fun d => match d.1, k with
                      | test_class, test_class => true
                      | stage_class, stage_class => true
                      | _, _ => false
                      end) ds.

(** ** What a check contributes *)


(** The exit code the outcome of [run] makes the engine assign: 1 when [run]
    returns false or raises, 3 when it returns true with the warning flag,
    none when it returns true without. *)
Definition assigned (item : InfraTest.instance) : option Z :=
  match InfraTest.run (InfraTest.cls item) (InfraTest.attrs item) with
  | (Returned true, w) => if InfraTest.warn w then Some 3 else None
  | _ => Some 1
  end.

Definition last_assigned (ec : Z) (items : list InfraTest.instance) : Z :=
  foldl (fun ec item => default ec (assigned item)) ec items.

Definition assigns (c : Z) (item : InfraTest.instance) : bool :=
  bool_decide (assigned item = Some c).

(** A registered object after its own [execute] has run. *)
Definition execute_item (item : InfraTest.instance) : InfraTest.instance :=
  InfraTest.mkInstance (InfraTest.cls item)
    (state_of (InfraTest.execute (InfraTest.cls item) (InfraTest.attrs item))).

(** How often [fail] is due: the items whose [run] returns false. *)
Definition returns_false (item : InfraTest.instance) : bool :=
  match InfraTest.run (InfraTest.cls item) (InfraTest.attrs item) with
  | (Returned false, _) => true
  | _ => false
  end.

(** The structures handed to [json.dumps] and logged at level API. *)
Fixpoint payloads {S} (tr : list (Event S)) : list Payload :=
  match tr with
  | [] => []
  | Logged API p _ :: tr' => p :: payloads tr'
  | _ :: tr' => payloads tr'
  end.

(** The lines logged at the other levels, in order. *)
Fixpoint lines {S} (tr : list (Event S)) : list (Level * string) :=
  match tr with
  | [] => []
  | Logged lvl (Text msg) _ :: tr' => (lvl, msg) :: lines tr'
  | _ :: tr' => lines tr'
  end.

(** What [Stage.execute] never writes: everything of an object but the
    attributes its own methods write. *)
Definition same_but_findings (a b : InfraTest.instance) : Prop :=
  InfraTest.cls a = InfraTest.cls b /\
  InfraTest.set_findings (InfraTest.attrs a)
    (InfraTest.findings (InfraTest.attrs b)) = InfraTest.attrs b.


(** ** Tactics *)

Ltac unfold_M :=
  unfold outcome_of, state_of, trace_of,
    InfraTest.execute, InfraTest.set_exit_code, InfraTest.set_report,
    Stage.iteration, Stage.body, Stage.set_exit_code, Stage.set_report,
    Stage.bind_report, Stage.append_report, Stage.set_test_findings,
    InfraTest.set_findings,
    bind, try_except, call, assign, log, log_exc, log_json, ret, get,
    Exception_class.

(** The paths through the loop body of [Stage.execute]: [run] returns true
    (with and without the warning flag), returns false (with [fail]
    returning or raising) or raises; each with and without a message. *)
Ltac by_iteration_cases :=
  unfold_M;
  destruct (InfraTest.run _ _) as [[[]|?] ?]; simpl;
  [ destruct (InfraTest.warn _); simpl
  | destruct (InfraTest.fail _ _) as [[?|?] ?]; simpl
  | ];
  destruct (InfraTest.message _); simpl.

(** The path on which [run] returned false and [fail] raised. *)
Ltac on_fail_fault Hrun Hfail :=
  unfold report_of; unfold_M; simpl; rewrite Hrun; simpl;
  unfold InfraTest.set_findings, about_to_fail in Hfail; simpl in Hfail;
  rewrite Hfail; simpl;
  destruct (InfraTest.message _); simpl.

Ltac unfold_E :=
  unfold outcome_of, state_of, trace_of,
    Executor.execute, Executor.run, Executor.post_process,
    Executor.set_exit_code, Executor.set_report,
    bind, try_except, call, assign, log, log_exc, log_json, ret, get.

Ltac result_entry :=
  unfold result_of in *; simpl in *; simplify_map_eq; auto.

Ltac each_state H :=
  repeat (apply elem_of_cons in H as [->|H]);
  [..| by apply elem_of_nil in H].

(** ** The loop of [Stage.execute] *)

Lemma iteration_returns item ec reps :
  outcome_of (Stage.iteration item ec reps) = Returned tt.
Proof.
  by_iteration_cases; reflexivity.
Qed.

Lemma iteration_reports item ec reps :
  Stage.reports (state_of (Stage.iteration item ec reps))
  = reps ++ [report_of item].
Proof.
  unfold report_of. unfold_M.
  destruct (InfraTest.run _ _) as [[[]|ex] w]; simpl.
  - destruct (InfraTest.warn w); simpl;
      destruct (InfraTest.message w); reflexivity.
  - destruct (InfraTest.fail _ _) as [[u|ex] w']; simpl;
      destruct (InfraTest.message w'); reflexivity.
  - destruct (InfraTest.message w); reflexivity.
Qed.

Lemma iteration_exit_code item ec reps :
  let ec' := Stage.exit_code (state_of (Stage.iteration item ec reps)) in
  ec' = ec \/ ec' = 1 \/ ec' = 3.
Proof.
  by_iteration_cases; simpl; auto.
Qed.

Lemma iteration_calls_run item ec reps :
  calls run_method (trace_of (Stage.iteration item ec reps)) = 1%nat.
Proof.
  by_iteration_cases; reflexivity.
Qed.

Lemma calls_app {S} (m : Method) (tr1 tr2 : list (Event S)) :
  calls m (tr1 ++ tr2) = (calls m tr1 + calls m tr2)%nat.
Proof. unfold calls. by rewrite List.filter_app, length_app. Qed.

Lemma dumped_last (tr : list (Event Stage.Frame)) (l : list Report) b :
  Stage.dumped (tr ++ [Logged API (JsonReports l) b]) = Some l.
Proof.
  induction tr as [|e tr IH]; simpl; [done|].
  rewrite IH. by destruct e as [[] [] ?| |].
Qed.

(** The loop runs every item once, appends one report per item and leaves
    the exit code at its incoming value, 1 or 3. *)
Lemma for_tests_returns items : forall ec reps,
  exists ec' items' tr,
    Stage.for_tests items ec reps
    = (Returned (ec', reps ++ (report_of <$> items)), items', tr) /\
    (ec' = ec \/ ec' = 1 \/ ec' = 3) /\
    calls run_method tr = length items.
Proof.
  induction items as [|item rest IH]; intros ec reps; simpl.
  - exists ec, [], []. rewrite app_nil_r. auto.
  - pose proof (iteration_returns item ec reps) as Hret.
    pose proof (iteration_reports item ec reps) as Hreps.
    pose proof (iteration_exit_code item ec reps) as Hec.
    pose proof (iteration_calls_run item ec reps) as Hcalls.
    destruct (Stage.iteration item ec reps) as [[r f] tr].
    unfold outcome_of, state_of, trace_of in *. simpl in *. subst r.
    destruct (IH (Stage.exit_code f) (Stage.reports f))
      as (ec' & rest' & tr' & -> & Hec' & Hcalls').
    eexists _, _, _. split; [|split].
    + by rewrite Hreps, <- app_assoc.
    + lia.
    + rewrite calls_app. lia.
Qed.

Lemma stage_execute_returns (self : Stage.t) :
  exists ec,
    outcome_of (Stage.execute self) = Returned ec /\
    (ec = 0 \/ ec = 1 \/ ec = 3) /\
    Stage.dumped (trace_of (Stage.execute self))
    = Some (report_of <$> Stage.infra_tests self) /\
    calls run_method (trace_of (Stage.execute self))
    = length (Stage.infra_tests self).
Proof.
  unfold Stage.execute.
  destruct (for_tests_returns (Stage.infra_tests self) 0 [])
    as (ec & items' & tr & -> & Hec & Hcalls).
  exists ec. unfold outcome_of, trace_of. cbn [fst snd].
  split; [done|split; [done|split]].
  - by rewrite app_assoc, dumped_last.
  - rewrite !calls_app. cbn. lia.
Qed.

(** ** The loop of [Stage.execute]: what each check contributes *)

Lemma iteration_effects item ec reps :
  let f := state_of (Stage.iteration item ec reps) in
  Stage.exit_code f = default ec (assigned item) /\
  same_but_findings item
    (InfraTest.mkInstance (InfraTest.cls item) (Stage.test f)) /\
  calls fail_method (trace_of (Stage.iteration item ec reps))
  = (if returns_false item then 1 else 0)%nat.
Proof.
  unfold assigned, returns_false, same_but_findings. unfold_M. simpl.
  destruct (InfraTest.run _ _) as [[[]|ex] w]; simpl.
  - destruct (InfraTest.warn w); simpl;
      by destruct (InfraTest.message w).
  - destruct (InfraTest.fail _ _) as [[u|ex] w']; simpl;
      by destruct (InfraTest.message w').
  - by destruct (InfraTest.message w).
Qed.

Lemma report_of_entries item :
  report_of item !! "name" = Some (InfraTest.name (InfraTest.attrs item)) /\
  report_of item !! "description"
  = Some (InfraTest.description (InfraTest.attrs item)) /\
  (report_of item !! "result" = Some "pass" \/
   report_of item !! "result" = Some "fail" \/
   report_of item !! "result" = Some "exec_fail").
Proof.
  unfold report_of. unfold_M. simpl.
  destruct (InfraTest.run _ _) as [[[]|ex] w]; simpl.
  - destruct (InfraTest.warn w); simpl;
      destruct (InfraTest.message w); simpl; repeat split;
      simplify_map_eq; auto.
  - destruct (InfraTest.fail _ _) as [[u|ex] w']; simpl;
      destruct (InfraTest.message w'); simpl; repeat split;
      simplify_map_eq; auto.
  - destruct (InfraTest.message w); simpl; repeat split;
      simplify_map_eq; auto.
Qed.

Lemma for_tests_effects items : forall ec reps,
  exists items' tr,
    Stage.for_tests items ec reps
    = (Returned (last_assigned ec items, reps ++ (report_of <$> items)),
       items', tr) /\
    Forall2 same_but_findings items items' /\
    calls fail_method tr = length (List.filter returns_false items).
Proof.
  induction items as [|item rest IH]; intros ec reps; simpl.
  - exists [], []. rewrite app_nil_r. by repeat split.
  - pose proof (iteration_returns item ec reps) as Hret.
    pose proof (iteration_reports item ec reps) as Hreps.
    pose proof (iteration_effects item ec reps) as (Hec & Hsame & Hfail).
    destruct (Stage.iteration item ec reps) as [[r f] tr].
    unfold outcome_of, state_of, trace_of in *. simpl in *. subst r.
    destruct (IH (Stage.exit_code f) (Stage.reports f))
      as (rest' & tr' & -> & Hrest & Hfail').
    eexists _, _. split; [|split].
    + by rewrite Hreps, Hec, <- app_assoc.
    + by constructor.
    + rewrite calls_app, Hfail, Hfail'.
      by destruct (returns_false item).
Qed.

Lemma stage_execute_effects (stage : Stage.t) :
  exists items' tr,
    Stage.execute stage
    = (Returned (last_assigned 0 (Stage.infra_tests stage)),
       with_tests stage items',
       tr ++ [Logged API
                (JsonReports (report_of <$> Stage.infra_tests stage)) false])
    /\
    Forall2 same_but_findings (Stage.infra_tests stage) items' /\
    calls fail_method tr
    = length (List.filter returns_false (Stage.infra_tests stage)).
Proof.
  unfold Stage.execute.
  destruct (for_tests_effects (Stage.infra_tests stage) 0 [])
    as (items' & tr & -> & Hsame & Hfail).
  eexists items', (_ :: _ :: tr). split; [done|]. split; [done|].
  change (?a :: ?b :: tr) with ([a; b] ++ tr). rewrite calls_app.
  by rewrite Hfail.
Qed.

Lemma last_assigned_snoc ec items item :
  last_assigned ec (items ++ [item])
  = default (last_assigned ec items) (assigned item).
Proof. unfold last_assigned. by rewrite foldl_app. Qed.

Lemma assigned_values item :
  assigned item = None \/ assigned item = Some 1 \/ assigned item = Some 3.
Proof.
  unfold assigned.
  destruct (InfraTest.run _ _) as [[[]|ex] w]; auto.
  destruct (InfraTest.warn w); auto.
Qed.

(** The last assignment of a run of the loop: none was made, or some item
    made it, and no later item made another. *)
Lemma last_assigned_cases ec items :
  (last_assigned ec items = ec /\ Forall (fun x => assigned x = None) items)
  \/
  exists before item after,
    items = before ++ item :: after /\
    assigned item = Some (last_assigned ec items) /\
    Forall (fun x => assigned x = None) after.
Proof.
  induction items as [|item items IH] using rev_ind.
  - left. by split.
  - rewrite last_assigned_snoc.
    destruct (assigned item) as [c|] eqn:Hitem; simpl.
    + right. exists items, item, []. by rewrite Hitem.
    + destruct IH as [[-> Hnone]|(before & x & after & -> & Hx & Hafter)].
      * left. split; [done|]. apply Forall_app. by repeat constructor.
      * right. exists before, x, (after ++ [item]).
        rewrite <- app_assoc. split; [done|]. split; [done|].
        apply Forall_app. by repeat constructor.
Qed.

Lemma last_assigned_none ec items :
  Forall (fun x => assigned x = None) items -> last_assigned ec items = ec.
Proof.
  intros Hnone. revert ec.
  induction Hnone as [|item items Hitem _ IH]; intros ec; [done|].
  unfold last_assigned in *. simpl. rewrite Hitem. apply IH.
Qed.

Lemma last_assigned_decided ec before item after c :
  assigned item = Some c ->
  Forall (fun x => assigned x = None) after ->
  last_assigned ec (before ++ item :: after) = c.
Proof.
  intros Hitem Hnone. unfold last_assigned.
  rewrite foldl_app. simpl. rewrite Hitem. simpl.
  by apply last_assigned_none.
Qed.

(** ** Checks: the outcome of one execution *)

(** C4: when [run] raises a fault, the check's report result becomes
    [exec_fail], its exit code becomes 1, the fault's message and the trace
    string are recorded on the report, and [fail] is not called.  This holds
    for [InfraTest.execute] and for [Stage.execute]: in the body of its loop
    the stage's running exit code becomes 1 and the report built has the
    three entries; and for every stage holding the check, at any position,
    [execute] returns, runs every check once, dumps that report at the
    check's position, calls [fail] as often as the other checks make it, and
    returns the 1 assigned for this check unless a later check assigns
    anew. *)
Theorem run_fault_is_exec_fail (cls : InfraTest.Class) (self : InfraTest.t)
    (ex : Exception) (w : InfraTest.Findings) :
  InfraTest.run cls self = (Raised ex, w) ->
  (let x := InfraTest.execute cls self in
   outcome_of x = Returned tt /\
   InfraTest.exit_code (state_of x) = 1 /\
   InfraTest.report (state_of x) !! "result" = Some "exec_fail" /\
   InfraTest.report (state_of x) !! "error" = Some (ex_message ex) /\
   InfraTest.report (state_of x) !! "trace" = Some (format_exc ex) /\
   calls run_method (trace_of x) = 1%nat /\
   calls fail_method (trace_of x) = 0%nat) /\
  (let item := InfraTest.mkInstance cls self in
   (forall exit_code reports,
      let x := Stage.iteration item exit_code reports in
      outcome_of x = Returned tt /\
      Stage.exit_code (state_of x) = 1 /\
      Stage.report (state_of x) = report_of item /\
      Stage.reports (state_of x) = reports ++ [report_of item] /\
      calls run_method (trace_of x) = 1%nat /\
      calls fail_method (trace_of x) = 0%nat) /\
   report_of item !! "result" = Some "exec_fail" /\
   report_of item !! "error" = Some (ex_message ex) /\
   report_of item !! "trace" = Some (format_exc ex) /\
   forall (stage : Stage.t) (before after : list InfraTest.instance),
     Stage.infra_tests stage = before ++ item :: after ->
     let y := Stage.execute stage in
     outcome_of y = Returned (last_assigned 1 after) /\
     Stage.dumped (trace_of y)
     = Some ((report_of <$> before) ++ report_of item
               :: (report_of <$> after)) /\
     calls run_method (trace_of y) = length (before ++ item :: after) /\
     calls fail_method (trace_of y)
     = length (List.filter returns_false (before ++ after))).
Proof.
  intros Hrun. split; [|split; [|split; [|split; [|split]]]].
  - unfold_M; simpl; rewrite Hrun; simpl;
      destruct (InfraTest.message w) as [msg|]; simpl;
      repeat split; by simplify_map_eq.
  - intros exit_code reports. unfold report_of.
    unfold_M; simpl; rewrite Hrun; simpl;
      destruct (InfraTest.message w) as [msg|]; simpl;
      repeat split; by simplify_map_eq.
  - unfold report_of. unfold_M; simpl; rewrite Hrun; simpl;
      destruct (InfraTest.message w) as [msg|]; simpl; by simplify_map_eq.
  - unfold report_of. unfold_M; simpl; rewrite Hrun; simpl;
      destruct (InfraTest.message w) as [msg|]; simpl; by simplify_map_eq.
  - unfold report_of. unfold_M; simpl; rewrite Hrun; simpl;
      destruct (InfraTest.message w) as [msg|]; simpl; by simplify_map_eq.
  - intros stage before after Htests.
    assert (Hitem : assigned (InfraTest.mkInstance cls self) = Some 1)
      by (unfold assigned; simpl; by rewrite Hrun).
    assert (Hfalse : returns_false (InfraTest.mkInstance cls self) = false)
      by (unfold returns_false; simpl; by rewrite Hrun).
    destruct (stage_execute_returns stage) as (ec & _ & _ & _ & Hn).
    destruct (stage_execute_effects stage)
      as (items' & tr & Heq & _ & Hfail).
    cbn zeta. rewrite Heq in *. unfold outcome_of, trace_of in *.
    cbn [fst snd] in *. rewrite Htests in *.
    split; [|split; [|split]].
    + unfold last_assigned. rewrite foldl_app. simpl. by rewrite Hitem.
    + by rewrite dumped_last, fmap_app, fmap_cons.
    + done.
    + rewrite calls_app, Hfail, !List.filter_app. simpl. rewrite Hfalse.
      cbn. rewrite !length_app. lia.
Qed.

Lemma run_fault_is_exec_fail_witness :
  let A := Sample.check "A" Sample.warning in
  let B := Sample.check "B" Sample.broken in
  InfraTest.run Sample.broken (Sample.fresh "B")
  = (Raised Sample.boom, InfraTest.findings (Sample.fresh "B")) /\
  InfraTest.report
    (state_of (InfraTest.execute Sample.broken (Sample.fresh "B")))
    !! "result" = Some "exec_fail" /\
  outcome_of (Stage.execute (Sample.stage [A; B])) = Returned 1 /\
  Stage.dumped (trace_of (Stage.execute (Sample.stage [A; B])))
  = Some [report_of A; report_of B] /\
  report_of B !! "result" = Some "exec_fail" /\
  calls fail_method (trace_of (Stage.execute (Sample.stage [A; B]))) = 0%nat.
Proof.
  intros A B.
  pose proof (run_fault_is_exec_fail Sample.broken (Sample.fresh "B")
                Sample.boom _ eq_refl) as [Hcheck (_ & Hres & _ & _ & Hstage)].
  destruct (Hstage (Sample.stage [A; B]) [A] [] eq_refl)
    as (Hout & Hdump & _ & Hfail).
  split; [reflexivity|]. split; [apply Hcheck|].
  split; [exact Hout|]. split; [exact Hdump|]. split; [exact Hres|].
  exact Hfail.
Defined.

(** C5: when [run] returns false and [fail] raises, the fault is caught: the
    exit code stays 1, the report keeps the result [fail], the fault's
    message and trace are attached to that report, and the execution goes on:
    [InfraTest.execute] returns normally, and [Stage.execute] runs every
    check of the stage and dumps for the later checks the reports they get in
    a stage of their own. *)
Theorem fail_fault_is_contained (cls : InfraTest.Class) (self : InfraTest.t)
    (ex : Exception) (w w' : InfraTest.Findings) :
  InfraTest.run cls self = (Returned false, w) ->
  (InfraTest.fail cls (about_to_fail self w) = (Raised ex, w') ->
   result_of self = Some "fail" ->
   let x := InfraTest.execute cls self in
   outcome_of x = Returned tt /\
   InfraTest.exit_code (state_of x) = 1 /\
   InfraTest.report (state_of x) !! "result" = Some "fail" /\
   InfraTest.report (state_of x) !! "error" = Some (ex_message ex) /\
   InfraTest.report (state_of x) !! "trace" = Some (format_exc ex) /\
   calls fail_method (trace_of x) = 1%nat) /\
  (InfraTest.fail cls (InfraTest.set_findings self w) = (Raised ex, w') ->
   let item := InfraTest.mkInstance cls self in
   (forall exit_code reports,
      Stage.exit_code (state_of (Stage.iteration item exit_code reports))
      = 1) /\
   report_of item !! "result" = Some "fail" /\
   report_of item !! "error" = Some (ex_message ex) /\
   report_of item !! "trace" = Some (format_exc ex) /\
   forall (stage : Stage.t) (before after : list InfraTest.instance),
     Stage.infra_tests stage = before ++ item :: after ->
     (exists exit_code,
        outcome_of (Stage.execute stage) = Returned exit_code) /\
     calls run_method (trace_of (Stage.execute stage))
     = length (before ++ item :: after) /\
     exists reports,
       Stage.dumped (trace_of (Stage.execute (with_tests stage after)))
       = Some reports /\
       Stage.dumped (trace_of (Stage.execute stage))
       = Some ((report_of <$> before) ++ report_of item :: reports)).
Proof.
  intros Hrun. split.
  - intros Hfail Hres. unfold result_of in Hres.
    on_fail_fault Hrun Hfail; repeat split; by simplify_map_eq.
  - intros Hfail item. split; [|split; [|split; [|split]]].
    + intros exit_code reports. by on_fail_fault Hrun Hfail.
    + on_fail_fault Hrun Hfail; by simplify_map_eq.
    + on_fail_fault Hrun Hfail; by simplify_map_eq.
    + on_fail_fault Hrun Hfail; by simplify_map_eq.
    + intros stage before after Htests.
      destruct (stage_execute_returns stage) as (ec & Hout & _ & Hdump & Hn).
      destruct (stage_execute_returns (with_tests stage after))
        as (_ & _ & _ & Hdump' & _).
      split; [by exists ec|]. split; [by rewrite Hn, Htests|].
      exists (report_of <$> after). split; [done|].
      by rewrite Hdump, Htests, fmap_app, fmap_cons.
Qed.

Lemma fail_fault_is_contained_witness :
  let A := Sample.check "A" Sample.failing_badly in
  let B := Sample.check "B" Sample.warning in
  InfraTest.run Sample.failing_badly (Sample.fresh "A")
  = (Returned false, InfraTest.findings (Sample.fresh "A")) /\
  InfraTest.report
    (state_of (InfraTest.execute Sample.failing_badly (Sample.fresh "A")))
    !! "result" = Some "fail" /\
  calls run_method (trace_of (Stage.execute (Sample.stage [A; B]))) = 2%nat.
Proof.
  intros A B.
  pose proof (fail_fault_is_contained Sample.failing_badly (Sample.fresh "A")
                Sample.boom (InfraTest.findings (Sample.fresh "A"))
                (InfraTest.findings (Sample.fresh "A")) eq_refl)
    as [Hcheck Hstage].
  split; [reflexivity|split].
  - apply Hcheck; [reflexivity | vm_compute; reflexivity].
  - destruct (Hstage eq_refl) as (_ & _ & _ & _ & Hloop).
    apply (Hloop (Sample.stage [A; B]) [] [B] eq_refl).
Defined.

(** C7: when [run] returns true with the warning flag set, the check's exit
    code is 3 and its report result is [pass], whatever the message; when the
    flag is not set the exit code is 0.  For [InfraTest.execute] the exit
    code is the check's own, 0 since construction; for [Stage.execute] it is
    what a stage holding this one check returns. *)
Theorem pass_exit_code_follows_warn (cls : InfraTest.Class)
    (self : InfraTest.t) (w : InfraTest.Findings) :
  InfraTest.run cls self = (Returned true, w) ->
  InfraTest.exit_code self = 0 ->
  (let x := InfraTest.execute cls self in
   outcome_of x = Returned tt /\
   InfraTest.exit_code (state_of x) = (if InfraTest.warn w then 3 else 0) /\
   InfraTest.report (state_of x) !! "result" = Some "pass" /\
   calls fail_method (trace_of x) = 0%nat) /\
  (forall stage : Stage.t,
   Stage.infra_tests stage = [InfraTest.mkInstance cls self] ->
   let x := Stage.execute stage in
   outcome_of x = Returned (if InfraTest.warn w then 3 else 0) /\
   report_of (InfraTest.mkInstance cls self) !! "result" = Some "pass" /\
   Stage.dumped (trace_of x) = Some [report_of (InfraTest.mkInstance cls self)] /\
   calls fail_method (trace_of x) = 0%nat).
Proof.
  intros Hrun Hzero. split.
  - unfold_M. simpl. rewrite Hrun. simpl.
    destruct (InfraTest.warn w); simpl;
      destruct (InfraTest.message w) as [msg|]; simpl;
      repeat split; by simplify_map_eq.
  - intros stage Htests. unfold Stage.execute, report_of. rewrite Htests.
    unfold Stage.for_tests. unfold_M. simpl. rewrite Hrun. simpl.
    destruct (InfraTest.warn w); simpl;
      destruct (InfraTest.message w) as [msg|]; simpl;
      repeat split; by simplify_map_eq.
Qed.

Lemma pass_exit_code_follows_warn_witness :
  InfraTest.run Sample.warning (Sample.fresh "B")
  = (Returned true, Sample.warned) /\
  InfraTest.exit_code (Sample.fresh "B") = 0 /\
  InfraTest.exit_code
    (state_of (InfraTest.execute Sample.warning (Sample.fresh "B"))) = 3 /\
  outcome_of (Stage.execute (Sample.stage [Sample.check "B" Sample.warning]))
  = Returned 3.
Proof.
  pose proof (pass_exit_code_follows_warn Sample.warning (Sample.fresh "B")
                Sample.warned eq_refl eq_refl) as [Hcheck Hstage].
  split; [reflexivity|split; [reflexivity|split]].
  - apply Hcheck.
  - apply (Hstage (Sample.stage [Sample.check "B" Sample.warning]) eq_refl).
Defined.

(** ** Checks: the [result] entry over the lifecycle *)

(** C8: over the lifecycle of a check, from construction through completed
    execution, the [result] entry of its report is one of [pass], [fail],
    [exec_fail]: construction sets it to [fail], every assignment either
    keeps it or moves it from [fail] to [pass] or [exec_fail], it is [pass]
    only after [run] returned true and [exec_fail] only after [run] raised. *)
Theorem result_entry_lifecycle (cls : InfraTest.Class) (self : InfraTest.t) :
  result_of self = Some "fail" ->
  let x := InfraTest.execute cls self in
  let lifecycle := self :: stores (trace_of x) in
  (forall name description host fqdn,
     result_of (InfraTest.__init__ name description host fqdn) = Some "fail")
  /\
  last lifecycle = Some (state_of x) /\
  (forall s, s ∈ lifecycle ->
     result_of s = Some "pass" \/ result_of s = Some "fail" \/
     result_of s = Some "exec_fail") /\
  result_steps (Some "fail") (stores (trace_of x)) /\
  (forall s, s ∈ lifecycle -> result_of s = Some "pass" ->
     exists w, InfraTest.run cls self = (Returned true, w)) /\
  (forall s, s ∈ lifecycle -> result_of s = Some "exec_fail" ->
     exists ex w, InfraTest.run cls self = (Raised ex, w)).
Proof.
  intros Hres x lifecycle. subst x lifecycle.
  split; [intros; by result_entry|].
  unfold_M. simpl.
  destruct (InfraTest.run cls self) as [[[]|ex] w] eqn:Hrun; simpl.
  - destruct (InfraTest.warn w); simpl;
      destruct (InfraTest.message w) as [msg|]; simpl;
      (split; [reflexivity|]);
      (split; [intros s Hs; each_state Hs; result_entry|]);
      (split; [unfold result_step; repeat split; result_entry|]);
      (split; intros s Hs Hr; [by eauto|]);
      each_state Hs; result_entry.
  - destruct (InfraTest.fail cls _) as [[u|ex] w']; simpl;
      destruct (InfraTest.message w') as [msg|]; simpl;
      (split; [reflexivity|]);
      (split; [intros s Hs; each_state Hs; result_entry|]);
      (split; [unfold result_step; repeat split; result_entry|]);
      split; intros s Hs Hr; each_state Hs; result_entry.
  - destruct (InfraTest.message w) as [msg|]; simpl;
      (split; [reflexivity|]);
      (split; [intros s Hs; each_state Hs; result_entry|]);
      (split; [unfold result_step; repeat split; result_entry|]);
      (split; intros s Hs Hr; [|by eauto]);
      each_state Hs; result_entry.
Qed.

Lemma result_entry_lifecycle_witness :
  result_of (Sample.fresh "A") = Some "fail" /\
  result_steps (Some "fail")
    (stores (trace_of (InfraTest.execute Sample.warning (Sample.fresh "A")))).
Proof.
  split; [vm_compute; reflexivity|].
  apply (result_entry_lifecycle Sample.warning (Sample.fresh "A")).
  vm_compute; reflexivity.
Defined.

(** ** Executors *)

Lemma register_all_fields (items : list InfraTest.instance) :
  forall e : Executor.t,
  let e' := foldl (fun e x => Executor.register_infra_test x e) e items in
  Executor.hard_error_pre_condition e' = Executor.hard_error_pre_condition e /\
  Executor.exit_code e' = Executor.exit_code e /\
  Executor.report e' = Executor.report e /\
  Executor.infra_tests e' = Executor.infra_tests e ++ items.
Proof.
  induction items as [|x items IH]; intros e; simpl.
  - by rewrite app_nil_r.
  - destruct (IH (Executor.register_infra_test x e)) as (-> & -> & -> & ->).
    simpl. by rewrite <- app_assoc.
Qed.

Lemma registered_fields (name : string) (items : list InfraTest.instance) :
  Executor.hard_error_pre_condition (registered name items) = true /\
  Executor.exit_code (registered name items) = 0 /\
  Executor.report (registered name items)
  = {["executor_name" := VStr name]} /\
  Executor.infra_tests (registered name items) = items.
Proof. apply (register_all_fields items (Executor.__init__ name)). Qed.

(** [execute] never calls the [run] or the [fail] of a registered check, and
    leaves the registered objects as they are. *)
Lemma executor_calls_no_check (cls : Executor.Class) (self : Executor.t) :
  let x := Executor.execute cls self in
  calls run_method (trace_of x) = 0%nat /\
  calls fail_method (trace_of x) = 0%nat /\
  Executor.infra_tests (state_of x) = Executor.infra_tests self.
Proof.
  unfold_E. simpl.
  destruct (Executor.pre_condition cls self) as [[]|err]; simpl.
  - repeat case_decide; simpl; done.
  - destruct (is_PreConditionNotSatisfiedError err); simpl; [|done].
    destruct (Executor.hard_error_pre_condition self); simpl; [done|].
    repeat case_decide; simpl; done.
Qed.

(** What [post_process] derives from the exit codes of the registered
    checks, when the pre-condition is met. *)
Lemma executor_aggregation (cls : Executor.Class) (self : Executor.t) :
  Executor.pre_condition cls self = Returned tt ->
  let codes :=
    (fun x => InfraTest.exit_code (InfraTest.attrs x))
      <$> Executor.infra_tests self in
  let x := Executor.execute cls self in
  outcome_of x = Returned tt /\
  Executor.report (state_of x) !! "reports"
  = Some (VReports ((fun x => InfraTest.report (InfraTest.attrs x))
                      <$> Executor.infra_tests self)) /\
  (1 ∈ codes ->
   Executor.exit_code (state_of x) = 1 /\
   Executor.report (state_of x) !! "result" = Some (VStr "fail")) /\
  (1 ∉ codes -> 3 ∈ codes ->
   Executor.exit_code (state_of x) = 3 /\
   Executor.report (state_of x) !! "result" = Some (VStr "warning")) /\
  (1 ∉ codes -> 3 ∉ codes ->
   Executor.exit_code (state_of x) = Executor.exit_code self /\
   Executor.report (state_of x) !! "result" = Some (VStr "pass")).
Proof.
  intros Hpre. unfold_E. simpl. rewrite Hpre. simpl.
  repeat case_decide; simpl; repeat split; intros; by simplify_map_eq.
Qed.

(** C3: when [pre_condition] raises the pre-condition fault and
    [hard_error_pre_condition] is true, as the constructor sets it,
    [execute] stops at once: the aggregate result is [exec_fail], the fault's
    message and trace are in the aggregate report, no check is run and the
    report gets no [reports] entry.  It returns from the handler, before
    [run] and [post_process]: the two lines of the handler are all it logs,
    nothing is handed to [json.dumps], and the three entries of the handler
    are all it writes. *)
Theorem unmet_pre_condition_stops_executor (cls : Executor.Class)
    (self : Executor.t) (err : Exception) :
  Executor.pre_condition cls self = Raised err ->
  is_PreConditionNotSatisfiedError err = true ->
  Executor.hard_error_pre_condition self = true ->
  Executor.report self !! "reports" = None ->
  let x := Executor.execute cls self in
  (forall name items,
     Executor.hard_error_pre_condition (registered name items) = true /\
     Executor.report (registered name items) !! "reports" = None) /\
  outcome_of x = Returned tt /\
  Executor.report (state_of x) !! "result" = Some (VStr "exec_fail") /\
  Executor.report (state_of x) !! "error" = Some (VStr (ex_message err)) /\
  Executor.report (state_of x) !! "trace" = Some (VStr (format_exc err)) /\
  Executor.report (state_of x) !! "reports" = None /\
  Executor.infra_tests (state_of x) = Executor.infra_tests self /\
  calls pre_condition_method (trace_of x) = 1%nat /\
  calls run_method (trace_of x) = 0%nat /\
  calls fail_method (trace_of x) = 0%nat /\
  lines (trace_of x)
  = [(ERROR,
      "The pre condition check for Executor " +:+ Executor.name self
      +:+ " was not satisfied. Therefore, the execution of the "
      +:+ "following tests is being skipped: "
      +:+ join ((fun x => Executor.test_name x +:+ " on "
                   +:+ InfraTest.fqdn (InfraTest.attrs x))
                <$> Executor.infra_tests self));
     (INFO, "Exception info: " +:+ ex_message err)] /\
  payloads (trace_of x) = [] /\
  state_of x
  = {| Executor.name := Executor.name self;
       Executor.report :=
         <["trace" := VStr (format_exc err)]>
           (<["error" := VStr (ex_message err)]>
              (<["result" := VStr "exec_fail"]> (Executor.report self)));
       Executor.infra_tests := Executor.infra_tests self;
       Executor.exit_code := Executor.exit_code self;
       Executor.hard_error_pre_condition :=
         Executor.hard_error_pre_condition self |}.
Proof.
  intros Hpre Hkind Hhard Hnone. split.
  - intros name items.
    destruct (registered_fields name items) as (-> & _ & -> & _).
    by simplify_map_eq.
  - unfold_E. simpl. rewrite Hpre. simpl. rewrite Hkind, Hhard. simpl.
    repeat split; try done; try (by simplify_map_eq).
    by rewrite Hhard.
Qed.

Lemma unmet_pre_condition_stops_executor_witness :
  let e := Sample.executor [Sample.check "A" Sample.passing;
                            Sample.check "B" Sample.failing] in
  Executor.pre_condition Sample.unsatisfied e = Raised Sample.unmet /\
  Executor.hard_error_pre_condition e = true /\
  Executor.report (state_of (Executor.execute Sample.unsatisfied e))
    !! "result" = Some (VStr "exec_fail") /\
  Executor.report (state_of (Executor.execute Sample.unsatisfied e))
    !! "reports" = None /\
  length (lines (trace_of (Executor.execute Sample.unsatisfied e))) = 2%nat /\
  payloads (trace_of (Executor.execute Sample.unsatisfied e)) = [].
Proof.
  intros e.
  assert (Hnone : Executor.report e !! "reports" = None)
    by (vm_compute; reflexivity).
  pose proof (unmet_pre_condition_stops_executor Sample.unsatisfied e
                Sample.unmet eq_refl eq_refl eq_refl Hnone)
    as (_ & _ & Hres & _ & _ & Hreps & _ & _ & _ & _ & Hlines & Hpay & _).
  split; [reflexivity|split; [reflexivity|]].
  split; [exact Hres|]. split; [exact Hreps|].
  split; [by rewrite Hlines|exact Hpay].
Defined.

(** C9: a fault of [pre_condition] that is not the pre-condition fault is not
    caught by [execute]: it reaches the caller, with the executor as
    [pre_condition] left it; the pre-condition fault is the one kind
    [execute] recovers from. *)
Theorem only_unmet_pre_condition_is_recovered (cls : Executor.Class)
    (self : Executor.t) (ex : Exception) :
  Executor.pre_condition cls self = Raised ex ->
  (is_PreConditionNotSatisfiedError ex = false ->
   Executor.execute cls self
   = (Raised ex, self, [Called pre_condition_method; Stored self])) /\
  (is_PreConditionNotSatisfiedError ex = true ->
   outcome_of (Executor.execute cls self) = Returned tt).
Proof.
  intros Hpre. split; intros Hkind; unfold_E; simpl; rewrite Hpre; simpl;
    rewrite Hkind; simpl; [done|].
  destruct (Executor.hard_error_pre_condition self); simpl; [done|].
  repeat case_decide; done.
Qed.

Lemma only_unmet_pre_condition_is_recovered_witness :
  let e := Sample.executor [Sample.check "A" Sample.passing] in
  Executor.pre_condition Sample.crashing e = Raised Sample.boom /\
  is_PreConditionNotSatisfiedError Sample.boom = false /\
  outcome_of (Executor.execute Sample.crashing e) = Raised Sample.boom /\
  Executor.pre_condition Sample.unsatisfied e = Raised Sample.unmet /\
  is_PreConditionNotSatisfiedError Sample.unmet = true /\
  outcome_of (Executor.execute Sample.unsatisfied e) = Returned tt.
Proof.
  intros e.
  split; [reflexivity|split; [reflexivity|split]].
  - by rewrite (proj1 (only_unmet_pre_condition_is_recovered Sample.crashing
                         e Sample.boom eq_refl) eq_refl).
  - split; [reflexivity|split; [reflexivity|]].
    exact (proj2 (only_unmet_pre_condition_is_recovered Sample.unsatisfied
                    e Sample.unmet eq_refl) eq_refl).
Defined.

(** C10: on the path of C3 no assignment to [exit_code] occurs: the
    executor's exit code stays at the 0 of its construction, in every state
    the execution passes through, while the aggregate result is
    [exec_fail]. *)
Theorem unmet_pre_condition_keeps_exit_code (cls : Executor.Class)
    (self : Executor.t) (err : Exception) :
  Executor.pre_condition cls self = Raised err ->
  is_PreConditionNotSatisfiedError err = true ->
  Executor.hard_error_pre_condition self = true ->
  Executor.exit_code self = 0 ->
  let x := Executor.execute cls self in
  (forall name items, Executor.exit_code (registered name items) = 0) /\
  outcome_of x = Returned tt /\
  Executor.exit_code (state_of x) = 0 /\
  Forall (fun s => Executor.exit_code s = 0) (stores (trace_of x)) /\
  Executor.report (state_of x) !! "result" = Some (VStr "exec_fail").
Proof.
  intros Hpre Hkind Hhard Hzero. split.
  - intros name items. apply registered_fields.
  - unfold_E. simpl. rewrite Hpre. simpl. rewrite Hkind, Hhard. simpl.
    split; [done|split; [done|split]].
    + by repeat constructor.
    + by simplify_map_eq.
Qed.

Lemma unmet_pre_condition_keeps_exit_code_witness :
  let e := Sample.executor [Sample.check "A" Sample.failing] in
  Executor.pre_condition Sample.unsatisfied e = Raised Sample.unmet /\
  Executor.exit_code e = 0 /\
  Executor.exit_code (state_of (Executor.execute Sample.unsatisfied e)) = 0 /\
  Executor.report (state_of (Executor.execute Sample.unsatisfied e))
    !! "result" = Some (VStr "exec_fail").
Proof.
  intros e.
  pose proof (unmet_pre_condition_keeps_exit_code Sample.unsatisfied e
                Sample.unmet eq_refl eq_refl eq_refl eq_refl) as H.
  split; [reflexivity|split; [reflexivity|]].
  split; apply H.
Defined.

(** ** Aggregation *)

Lemma for_tests_app (l1 l2 : list InfraTest.instance) : forall ec reps,
  Stage.for_tests (l1 ++ l2) ec reps
  = let '(r1, items1, tr1) := Stage.for_tests l1 ec reps in
    match r1 with
    | Returned (ec1, reps1) =>
        let '(r2, items2, tr2) := Stage.for_tests l2 ec1 reps1 in
        (r2, items1 ++ items2, tr1 ++ tr2)
    | Raised ex => (Raised ex, items1 ++ l2, tr1)
    end.
Proof.
  induction l1 as [|item rest IH]; intros ec reps; simpl.
  - by destruct (Stage.for_tests l2 ec reps) as [[r2 items2] tr2].
  - destruct (Stage.iteration item ec reps) as [[[u|ex] f] tr]; [|done].
    rewrite IH.
    destruct (Stage.for_tests rest _ _) as [[[[ec1 reps1]|ex] items1] tr1];
      [|done].
    destruct (Stage.for_tests l2 ec1 reps1) as [[r2 items2] tr2].
    by rewrite app_assoc.
Qed.

(** The exit code [Stage.execute] returns is the one the last failing or
    warning check assigned: a stage whose last check passes with a warning
    returns 3, whatever the checks before it did. *)
Lemma stage_last_warning_wins (stage : Stage.t)
    (before : list InfraTest.instance) (cls : InfraTest.Class)
    (self : InfraTest.t) (w : InfraTest.Findings) :
  Stage.infra_tests stage = before ++ [InfraTest.mkInstance cls self] ->
  InfraTest.run cls self = (Returned true, w) ->
  InfraTest.warn w = true ->
  outcome_of (Stage.execute stage) = Returned 3.
Proof.
  intros Htests Hrun Hwarn. unfold Stage.execute.
  rewrite Htests, for_tests_app.
  destruct (for_tests_returns before 0 []) as (ec & items & tr & -> & _).
  unfold Stage.for_tests. unfold_M. simpl. rewrite Hrun. simpl.
  rewrite Hwarn. simpl. by destruct (InfraTest.message w).
Qed.

(** C1, at a stage with a failing check followed by a warning check:
    [Stage.execute] returns 3, and 1 when the same two checks are registered
    in the other order. *)
Theorem stage_warning_after_failure_returns_3 :
  let A := Sample.check "A" Sample.failing in
  let B := Sample.check "B" Sample.warning in
  outcome_of (Stage.execute (Sample.stage [A; B])) = Returned 3 /\
  outcome_of (Stage.execute (Sample.stage [B; A])) = Returned 1.
Proof. vm_compute. split; reflexivity. Qed.

(** C2, at an executor with one registered check whose [run] returns false:
    [execute] does not call [run], leaves the check as constructed, and
    reports exit code 0 and result [pass] over a per-check report that still
    reads [fail]; the check's own [execute] would have set its exit code
    to 1. *)
Theorem executor_execute_runs_no_check :
  let A := Sample.check "A" Sample.failing in
  let x := Executor.execute Sample.satisfied (Sample.executor [A]) in
  outcome_of x = Returned tt /\
  calls run_method (trace_of x) = 0%nat /\
  Executor.infra_tests (state_of x) = [A] /\
  Executor.exit_code (state_of x) = 0 /\
  Executor.report (state_of x) !! "result" = Some (VStr "pass") /\
  Executor.report (state_of x) !! "reports"
  = Some (VReports [InfraTest.report (Sample.fresh "A")]) /\
  InfraTest.report (Sample.fresh "A") !! "result" = Some "fail" /\
  InfraTest.exit_code (InfraTest.attrs (Sample.executed "A" Sample.failing)) = 1.
Proof. vm_compute. repeat split; reflexivity. Qed.

(** C6: the aggregate exit code is 0, 1 or 3, never 4: an executor is
    constructed with 0 and [Executor.execute] keeps the exit code among 0, 1
    and 3 whatever the exit codes of the registered checks are;
    [Stage.execute] returns 0, 1 or 3 for every list of checks. *)
Theorem aggregate_exit_code_is_0_1_or_3 :
  (forall name items, Executor.exit_code (registered name items) = 0) /\
  (forall (cls : Executor.Class) (self : Executor.t),
     documented (Executor.exit_code self) ->
     documented (Executor.exit_code (state_of (Executor.execute cls self)))) /\
  (forall stage : Stage.t,
     exists c, outcome_of (Stage.execute stage) = Returned c /\ documented c) /\
  ~ documented 4.
Proof.
  split; [intros; apply registered_fields|]. split; [|split].
  - intros cls self Hdoc. unfold_E. simpl.
    destruct (Executor.pre_condition cls self) as [[]|err]; simpl.
    + repeat case_decide; simpl; unfold documented; auto.
    + destruct (is_PreConditionNotSatisfiedError err); simpl; [|done].
      destruct (Executor.hard_error_pre_condition self); simpl; [done|].
      repeat case_decide; simpl; unfold documented; auto.
  - intros stage.
    destruct (stage_execute_returns stage) as (c & Hc & Hdoc & _).
    by exists c.
  - unfold documented. lia.
Qed.

Lemma aggregate_exit_code_is_0_1_or_3_witness :
  let e := Sample.executor [Sample.executed "A" Sample.failing;
                            Sample.executed "B" Sample.warning] in
  documented (Executor.exit_code e) /\
  Executor.exit_code (state_of (Executor.execute Sample.satisfied e)) = 1 /\
  documented
    (Executor.exit_code (state_of (Executor.execute Sample.satisfied e))).
Proof.
  intros e.
  assert (Hdoc : documented (Executor.exit_code e)) by (left; reflexivity).
  split; [exact Hdoc|]. split; [vm_compute; reflexivity|].
  apply (proj1 (proj2 aggregate_exit_code_is_0_1_or_3) Sample.satisfied e).
  exact Hdoc.
Defined.

(** ** More on one execution of a check *)

(** X1: [InfraTest.execute] never raises, whatever [run] and [fail] do; it
    calls [run] exactly once, and [fail] once when [run] returned false and
    not at all otherwise. *)
Theorem execute_is_a_fault_boundary (cls : InfraTest.Class)
    (self : InfraTest.t) :
  let x := InfraTest.execute cls self in
  outcome_of x = Returned tt /\
  calls run_method (trace_of x) = 1%nat /\
  calls fail_method (trace_of x)
  = (if returns_false (InfraTest.mkInstance cls self) then 1 else 0)%nat.
Proof.
  unfold returns_false. unfold_M. simpl.
  destruct (InfraTest.run cls self) as [[[]|ex] w]; simpl.
  - destruct (InfraTest.warn w); simpl;
      by destruct (InfraTest.message w).
  - destruct (InfraTest.fail cls _) as [[u|ex] w']; simpl;
      by destruct (InfraTest.message w').
  - by destruct (InfraTest.message w).
Qed.

(** X2: when neither [run] nor [fail] raises, [InfraTest.execute] leaves the
    [error] and [trace] entries of the report as they were; a check whose
    [run] returned false keeps its [result] entry and gets exit code 1, one
    whose [run] returned true gets [pass] and exit code 3 under the warning
    flag, its old exit code otherwise. *)
Theorem no_fault_leaves_no_error (cls : InfraTest.Class) (self : InfraTest.t)
    (b : bool) (w w' : InfraTest.Findings) :
  InfraTest.run cls self = (Returned b, w) ->
  (b = false ->
   InfraTest.fail cls (about_to_fail self w) = (Returned tt, w')) ->
  let s' := state_of (InfraTest.execute cls self) in
  InfraTest.report s' !! "error" = InfraTest.report self !! "error" /\
  InfraTest.report s' !! "trace" = InfraTest.report self !! "trace" /\
  result_of s' = (if b then Some "pass" else result_of self) /\
  InfraTest.exit_code s'
  = (if b then if InfraTest.warn w then 3 else InfraTest.exit_code self
     else 1).
Proof.
  intros Hrun Hfail. unfold result_of. unfold_M. simpl. rewrite Hrun.
  destruct b; simpl.
  - destruct (InfraTest.warn w); simpl;
      destruct (InfraTest.message w); simpl; repeat split;
      by simplify_map_eq.
  - unfold about_to_fail in Hfail. rewrite (Hfail eq_refl). simpl.
    destruct (InfraTest.message w'); simpl; repeat split;
      by simplify_map_eq.
Qed.

Lemma no_fault_leaves_no_error_witness :
  InfraTest.run Sample.failing (Sample.fresh "A")
  = (Returned false, InfraTest.findings (Sample.fresh "A")) /\
  InfraTest.report
    (state_of (InfraTest.execute Sample.failing (Sample.fresh "A")))
    !! "error" = InfraTest.report (Sample.fresh "A") !! "error" /\
  InfraTest.exit_code
    (state_of (InfraTest.execute Sample.failing (Sample.fresh "A"))) = 1.
Proof.
  pose proof (no_fault_leaves_no_error Sample.failing (Sample.fresh "A")
                false (InfraTest.findings (Sample.fresh "A"))
                (InfraTest.findings (Sample.fresh "A")) eq_refl
                (fun _ => eq_refl)) as H.
  split; [reflexivity|]. split; apply H.
Defined.

(** X3: on every path, faults included, the object ends with the attributes
    the last method called wrote ([fail] if it was called, [run] otherwise),
    and a message among them is attached to the report; without a message
    the [message] entry is left as it was. *)
Theorem message_is_attached (cls : InfraTest.Class) (self : InfraTest.t) :
  let s' := state_of (InfraTest.execute cls self) in
  InfraTest.findings s'
  = match InfraTest.run cls self with
    | (Returned false, w) => (InfraTest.fail cls (about_to_fail self w)).2
    | (_, w) => w
    end /\
  InfraTest.report s' !! "message"
  = match InfraTest.message (InfraTest.findings s') with
    | Some msg => Some msg
    | None => InfraTest.report self !! "message"
    end.
Proof.
  unfold about_to_fail. unfold_M. simpl.
  destruct (InfraTest.run cls self) as [[[]|ex] w]; simpl.
  - destruct (InfraTest.warn w); simpl;
      destruct (InfraTest.message w) eqn:Hm; simpl; rewrite ?Hm;
      split; by simplify_map_eq.
  - destruct (InfraTest.fail cls _) as [[u|ex] w']; simpl;
      destruct (InfraTest.message w') eqn:Hm; simpl; rewrite ?Hm;
      split; by simplify_map_eq.
  - destruct (InfraTest.message w) eqn:Hm; simpl; rewrite ?Hm;
      split; by simplify_map_eq.
Qed.

(** X4: [InfraTest.execute] writes no report entry but [result], [error],
    [trace] and [message], and leaves [host], [name], [description] and
    [fqdn] alone: the [name] and [description] entries of the report are
    those of construction. *)
Theorem execute_keeps_identity (cls : InfraTest.Class) (self : InfraTest.t)
    (k : string) :
  k <> "result" -> k <> "error" -> k <> "trace" -> k <> "message" ->
  let s' := state_of (InfraTest.execute cls self) in
  InfraTest.report s' !! k = InfraTest.report self !! k /\
  InfraTest.host s' = InfraTest.host self /\
  InfraTest.name s' = InfraTest.name self /\
  InfraTest.description s' = InfraTest.description self /\
  InfraTest.fqdn s' = InfraTest.fqdn self.
Proof.
  intros Hresult Herror Htrace Hmessage. unfold_M. simpl.
  destruct (InfraTest.run cls self) as [[[]|ex] w]; simpl.
  - destruct (InfraTest.warn w); simpl;
      destruct (InfraTest.message w); simpl; repeat split;
      by simplify_map_eq.
  - destruct (InfraTest.fail cls _) as [[u|ex] w']; simpl;
      destruct (InfraTest.message w'); simpl; repeat split;
      by simplify_map_eq.
  - destruct (InfraTest.message w); simpl; repeat split;
      by simplify_map_eq.
Qed.

Lemma execute_keeps_identity_witness :
  "name" <> "result" /\
  InfraTest.report
    (state_of (InfraTest.execute Sample.broken (Sample.fresh "A")))
    !! "name" = InfraTest.report (Sample.fresh "A") !! "name".
Proof.
  split; [discriminate|].
  apply (execute_keeps_identity Sample.broken (Sample.fresh "A") "name");
    discriminate.
Defined.

(** X5: [InfraTest.execute] logs its "passed!" line before it calls [run]:
    the trace of every execution starts with the "running" line, the
    "passed!" line and the call of [run], whether the check then passes,
    fails or raises. *)
Theorem passed_is_logged_before_run (cls : InfraTest.Class)
    (self : InfraTest.t) :
  let log_str :=
    InfraTest.name self +:+ " on " +:+ InfraTest.fqdn self +:+ ":" in
  exists rest,
    trace_of (InfraTest.execute cls self)
    = Logged INFO (Text (log_str +:+ " running")) false
      :: Logged INFO (Text (log_str +:+ " passed!")) false
      :: Called run_method :: rest.
Proof.
  unfold_M. cbn [fst snd].
  destruct (InfraTest.run cls self) as [[[]|ex] w]; cbn [fst snd].
  - destruct (InfraTest.warn _); cbn;
      destruct (InfraTest.message w); cbn; eauto.
  - destruct (InfraTest.fail cls _) as [[u|ex] w']; cbn;
      destruct (InfraTest.message w'); cbn; eauto.
  - cbn. destruct (InfraTest.message w); cbn; eauto.
Qed.



(** ** More on the loop of [Stage.execute] *)

(** X7: [Stage.execute] returns the exit code of the last check that did
    not pass cleanly: when the checks registered after [item] all pass
    without a warning, the stage returns 1 if [item] failed or raised and 3
    if it passed with a warning, whatever the checks before [item] did. *)
Theorem stage_exit_code_is_last_assignment (stage : Stage.t)
    (before after : list InfraTest.instance) (item : InfraTest.instance)
    (c : Z) :
  Stage.infra_tests stage = before ++ item :: after ->
  assigned item = Some c ->
  Forall (fun x => assigned x = None) after ->
  outcome_of (Stage.execute stage) = Returned c.
Proof.
  intros Htests Hitem Hnone.
  destruct (stage_execute_effects stage) as (items' & tr & -> & _).
  unfold outcome_of. simpl. rewrite Htests.
  by rewrite (last_assigned_decided 0 before item after c).
Qed.

Lemma stage_exit_code_is_last_assignment_witness :
  let A := Sample.check "A" Sample.warning in
  let B := Sample.check "B" Sample.broken in
  let C := Sample.check "C" Sample.passing in
  assigned B = Some 1 /\
  Forall (fun x => assigned x = None) [C] /\
  outcome_of (Stage.execute (Sample.stage [A; B; C])) = Returned 1.
Proof.
  intros A B C.
  assert (HB : assigned B = Some 1) by reflexivity.
  assert (HC : Forall (fun x => assigned x = None) [C])
    by (repeat constructor).
  split; [exact HB|]. split; [exact HC|].
  exact (stage_exit_code_is_last_assignment (Sample.stage [A; B; C])
           [A] [C] B 1 eq_refl HB HC).
Defined.

(** X8: [Stage.execute] returns 0 exactly when every check of the stage
    passed without a warning. *)
Theorem stage_returns_0_iff_clean (stage : Stage.t) :
  outcome_of (Stage.execute stage) = Returned 0 <->
  Forall (fun x => assigned x = None) (Stage.infra_tests stage).
Proof.
  destruct (stage_execute_effects stage) as (items' & tr & -> & _).
  unfold outcome_of. simpl. split.
  - intros Hzero.
    destruct (last_assigned_cases 0 (Stage.infra_tests stage))
      as [[_ Hnone]|(before & item & after & _ & Hitem & _)]; [done|].
    injection Hzero as Hzero. rewrite Hzero in Hitem.
    destruct (assigned_values item) as [H|[H|H]]; congruence.
  - intros Hnone. by rewrite last_assigned_none.
Qed.

Lemma stage_returns_0_iff_clean_witness :
  let A := Sample.check "A" Sample.passing in
  let B := Sample.check "B" Sample.passing in
  Forall (fun x => assigned x = None) [A; B] /\
  outcome_of (Stage.execute (Sample.stage [A; B])) = Returned 0.
Proof.
  intros A B.
  assert (Hclean : Forall (fun x => assigned x = None) [A; B])
    by (repeat constructor).
  split; [exact Hclean|].
  exact (proj2 (stage_returns_0_iff_clean (Sample.stage [A; B])) Hclean).
Defined.

(** X9: the exit code of [Stage.execute] names an outcome that occurred: it
    is 1 only if some check failed or raised, and 3 only if some check
    passed with a warning; and when no check failed or raised, one check
    that passed with a warning makes it 3. *)
Theorem stage_exit_code_is_witnessed (stage : Stage.t) :
  (outcome_of (Stage.execute stage) = Returned 1 ->
   exists item, item ∈ Stage.infra_tests stage /\ assigned item = Some 1) /\
  (outcome_of (Stage.execute stage) = Returned 3 ->
   exists item, item ∈ Stage.infra_tests stage /\ assigned item = Some 3) /\
  (Forall (fun x => assigned x <> Some 1) (Stage.infra_tests stage) ->
   (exists item,
      item ∈ Stage.infra_tests stage /\ assigned item = Some 3) ->
   outcome_of (Stage.execute stage) = Returned 3).
Proof.
  destruct (stage_execute_effects stage) as (items' & tr & -> & _).
  unfold outcome_of. simpl.
  destruct (last_assigned_cases 0 (Stage.infra_tests stage))
    as [[Hlast Hnone]|(before & item & after & Htests & Hitem & Hafter)].
  - rewrite Hlast. split; [done|]. split; [done|].
    intros _ (item & Hin & Hitem).
    rewrite Forall_forall in Hnone. specialize (Hnone item Hin). congruence.
  - assert (Hin : item ∈ Stage.infra_tests stage)
      by (rewrite Htests; set_solver).
    split; [|split].
    + intros [= Hone]. rewrite Hone in Hitem. eauto.
    + intros [= Hthree]. rewrite Hthree in Hitem. eauto.
    + intros Hnofail _. rewrite Forall_forall in Hnofail.
      specialize (Hnofail item Hin).
      destruct (assigned_values item) as [H|[H|H]]; congruence.
Qed.

Lemma stage_exit_code_is_witnessed_witness :
  let A := Sample.check "A" Sample.warning in
  let B := Sample.check "B" Sample.passing in
  Forall (fun x => assigned x <> Some 1) [A; B] /\
  outcome_of (Stage.execute (Sample.stage [A; B])) = Returned 3.
Proof.
  intros A B.
  assert (Hnofail : Forall (fun x => assigned x <> Some 1) [A; B])
    by (repeat constructor; discriminate).
  split; [exact Hnofail|].
  apply (proj2 (proj2 (stage_exit_code_is_witnessed (Sample.stage [A; B]))));
    [exact Hnofail|].
  exists A. split; [by left|reflexivity].
Defined.

(** X10: [Stage.execute] calls [fail] once for every check whose [run]
    returned false, and for no other check. *)
Theorem stage_calls_fail_per_failure (stage : Stage.t) :
  calls fail_method (trace_of (Stage.execute stage))
  = length (List.filter returns_false (Stage.infra_tests stage)).
Proof.
  destruct (stage_execute_effects stage) as (items' & tr & -> & _ & Hfail).
  unfold trace_of. simpl. rewrite calls_app, Hfail. cbn. lia.
Qed.

(** X11: [Stage.execute] dumps one report per check, in registration
    order; each carries the name and the description of its check and a
    result among [pass], [fail] and [exec_fail]. *)
Theorem stage_reports_follow_registration (stage : Stage.t) :
  exists reports,
    Stage.dumped (trace_of (Stage.execute stage)) = Some reports /\
    length reports = length (Stage.infra_tests stage) /\
    (fun r : Report => r !! "name") <$> reports
    = (fun x => Some (InfraTest.name (InfraTest.attrs x)))
        <$> Stage.infra_tests stage /\
    (fun r : Report => r !! "description") <$> reports
    = (fun x => Some (InfraTest.description (InfraTest.attrs x)))
        <$> Stage.infra_tests stage /\
    Forall (fun r : Report =>
              r !! "result" = Some "pass" \/ r !! "result" = Some "fail" \/
              r !! "result" = Some "exec_fail") reports.
Proof.
  destruct (stage_execute_effects stage) as (items' & tr & -> & _).
  unfold trace_of. simpl.
  exists (report_of <$> Stage.infra_tests stage).
  split; [apply dumped_last|]. split; [by rewrite length_fmap|].
  rewrite <- !list_fmap_compose.
  split; [|split].
  - apply list_fmap_ext. intros i x _. simpl. apply report_of_entries.
  - apply list_fmap_ext. intros i x _. simpl. apply report_of_entries.
  - apply Forall_fmap, Forall_forall. intros x _. simpl.
    apply report_of_entries.
Qed.

(** X12: [Stage.execute] never writes a check's own [report] or
    [exit_code]: it leaves every registered object as it was, but for the
    attributes the object's [run] and [fail] wrote.  The [report] of a
    check that passed in a stage still has the result of its construction. *)
Theorem stage_leaves_own_reports (stage : Stage.t) :
  let tests := Stage.infra_tests stage in
  let tests' := Stage.infra_tests (state_of (Stage.execute stage)) in
  Forall2 same_but_findings tests tests' /\
  (fun x => InfraTest.report (InfraTest.attrs x)) <$> tests'
  = (fun x => InfraTest.report (InfraTest.attrs x)) <$> tests /\
  (fun x => InfraTest.exit_code (InfraTest.attrs x)) <$> tests'
  = (fun x => InfraTest.exit_code (InfraTest.attrs x)) <$> tests.
Proof.
  destruct (stage_execute_effects stage) as (items' & tr & -> & Hsame & _).
  unfold state_of. simpl. split; [done|].
  induction Hsame as [|a b l l' [_ Hab] _ [IHr IHe]]; [done|].
  rewrite !fmap_cons, IHr, IHe, <- Hab. done.
Qed.

(** ** More on executors *)



(** X14: [post_process] hands the report to [json.dumps] before it sets
    the result: the one structure [execute] logs at level API has the
    [reports] entry but still the [result] entry of before the execution
    (none, for an executor as constructed), while the report it leaves has
    the new result.  On the path that stops at an unmet pre-condition
    nothing is dumped. *)
Theorem executor_dumps_before_result (cls : Executor.Class)
    (self : Executor.t) :
  (Executor.pre_condition cls self = Returned tt ->
   let x := Executor.execute cls self in
   exists dumped,
     payloads (trace_of x) = [JsonExecutor dumped] /\
     dumped !! "reports" = Executor.report (state_of x) !! "reports" /\
     dumped !! "result" = Executor.report self !! "result" /\
     is_Some (Executor.report (state_of x) !! "result")) /\
  (forall err,
     Executor.pre_condition cls self = Raised err ->
     is_PreConditionNotSatisfiedError err = true ->
     Executor.hard_error_pre_condition self = true ->
     payloads (trace_of (Executor.execute cls self)) = []).
Proof.
  split.
  - intros Hpre. unfold_E. simpl. rewrite Hpre. simpl.
    repeat case_decide; simpl; eexists; (split; [reflexivity|]);
      repeat split; by simplify_map_eq.
  - intros err Hpre Hkind Hhard. unfold_E. simpl. rewrite Hpre. simpl.
    by rewrite Hkind, Hhard.
Qed.

Lemma executor_dumps_before_result_witness :
  let e := Sample.executor [Sample.executed "A" Sample.failing] in
  Executor.pre_condition Sample.satisfied e = Returned tt /\
  exists dumped,
    payloads (trace_of (Executor.execute Sample.satisfied e))
    = [JsonExecutor dumped] /\
    dumped !! "result" = None /\
    Executor.report (state_of (Executor.execute Sample.satisfied e))
      !! "result" = Some (VStr "fail").
Proof.
  intros e. split; [reflexivity|].
  destruct (proj1 (executor_dumps_before_result Sample.satisfied e) eq_refl)
    as (dumped & Hdumped & _ & Hresult & _).
  exists dumped. split; [exact Hdumped|]. split.
  - rewrite Hresult. vm_compute. reflexivity.
  - vm_compute. reflexivity.
Defined.

(** X15: an executor constructed with [name], with [items] registered one
    after the other, reports them in that order: after [execute] the
    report has the executor's name under [executor_name] and the reports of
    the registered objects, in registration order, under [reports]. *)
Theorem executor_reports_follow_registration (cls : Executor.Class)
    (name : string) (items : list InfraTest.instance) :
  Executor.pre_condition cls (registered name items) = Returned tt ->
  let x := Executor.execute cls (registered name items) in
  Executor.infra_tests (registered name items) = items /\
  Executor.report (state_of x) !! "executor_name" = Some (VStr name) /\
  Executor.report (state_of x) !! "reports"
  = Some (VReports
            ((fun item => InfraTest.report (InfraTest.attrs item))
               <$> items)).
Proof.
  intros Hpre.
  destruct (registered_fields name items) as (_ & _ & Hreport & Htests).
  split; [done|]. unfold_E. simpl. rewrite Hpre. simpl.
  rewrite Hreport, Htests.
  repeat case_decide; simpl; split; by simplify_map_eq.
Qed.

Lemma executor_reports_follow_registration_witness :
  let A := Sample.executed "A" Sample.failing in
  let B := Sample.executed "B" Sample.warning in
  Executor.pre_condition Sample.satisfied (registered "site" [A; B])
  = Returned tt /\
  Executor.report
    (state_of (Executor.execute Sample.satisfied (registered "site" [A; B])))
    !! "reports"
  = Some (VReports [InfraTest.report (InfraTest.attrs A);
                    InfraTest.report (InfraTest.attrs B)]).
Proof.
  intros A B. split; [reflexivity|].
  apply (executor_reports_follow_registration Sample.satisfied "site" [A; B]
           eq_refl).
Defined.

(** What [InfraTest.execute] leaves as the exit code of an object. *)
Lemma execute_item_exit_code item :
  InfraTest.exit_code (InfraTest.attrs (execute_item item))
  = default (InfraTest.exit_code (InfraTest.attrs item)) (assigned item).
Proof.
  unfold execute_item, assigned. unfold_M. simpl.
  destruct (InfraTest.run _ _) as [[[]|ex] w]; simpl.
  - destruct (InfraTest.warn w); simpl;
      by destruct (InfraTest.message w).
  - destruct (InfraTest.fail _ _) as [[u|ex] w']; simpl;
      by destruct (InfraTest.message w').
  - by destruct (InfraTest.message w).
Qed.

(** Among the exit codes of executed objects that started at 0, a code
    other than 0 occurs exactly when some object was assigned it. *)
Lemma executed_codes items (c : Z) :
  Forall (fun x => InfraTest.exit_code (InfraTest.attrs x) = 0) items ->
  c <> 0 ->
  c ∈ (fun x => InfraTest.exit_code (InfraTest.attrs x))
        <$> (execute_item <$> items) <->
  exists item, item ∈ items /\ assigned item = Some c.
Proof.
  intros Hzero Hc. rewrite Forall_forall in Hzero.
  rewrite <- list_fmap_compose, list_elem_of_fmap.
  split.
  - intros (item & Hcode & Hin). exists item. split; [done|].
    change (c = InfraTest.exit_code (InfraTest.attrs (execute_item item)))
      in Hcode.
    rewrite execute_item_exit_code, (Hzero item Hin) in Hcode.
    destruct (assigned item); simpl in Hcode; congruence.
  - intros (item & Hin & Hitem). exists item. split; [|done].
    change (c = InfraTest.exit_code (InfraTest.attrs (execute_item item))).
    by rewrite execute_item_exit_code, Hitem.
Qed.

(** X16: [InfraTest.execute] and [post_process] compose to the documented
    aggregation: for an executor whose registered objects have each been
    executed, from exit code 0, the aggregate is 1 and [fail] when some
    check failed or raised, 3 and [warning] when none did and some check
    passed with a warning, and 0 and [pass] when all passed cleanly. *)
Theorem executor_aggregates_executed_checks (cls : Executor.Class)
    (self : Executor.t) (items : list InfraTest.instance) :
  Executor.pre_condition cls self = Returned tt ->
  Executor.infra_tests self = execute_item <$> items ->
  Forall (fun x => InfraTest.exit_code (InfraTest.attrs x) = 0) items ->
  Executor.exit_code self = 0 ->
  let x := Executor.execute cls self in
  ((exists item, item ∈ items /\ assigned item = Some 1) ->
   Executor.exit_code (state_of x) = 1 /\
   Executor.report (state_of x) !! "result" = Some (VStr "fail")) /\
  (Forall (fun x => assigned x <> Some 1) items ->
   (exists item, item ∈ items /\ assigned item = Some 3) ->
   Executor.exit_code (state_of x) = 3 /\
   Executor.report (state_of x) !! "result" = Some (VStr "warning")) /\
  (Forall (fun x => assigned x = None) items ->
   Executor.exit_code (state_of x) = 0 /\
   Executor.report (state_of x) !! "result" = Some (VStr "pass")).
Proof.
  intros Hpre Htests Hzero Hcode.
  destruct (executor_aggregation cls self Hpre)
    as (_ & _ & Hfail & Hwarn & Hpass).
  rewrite Htests in Hfail, Hwarn, Hpass.
  pose proof (executed_codes items 1 Hzero ltac:(done)) as Hone.
  pose proof (executed_codes items 3 Hzero ltac:(done)) as Hthree.
  split; [|split].
  - intros Hsome. by apply Hfail, Hone.
  - intros Hnofail Hsome. apply Hwarn; [|by apply Hthree].
    rewrite Hone. intros (item & Hin & Hitem).
    rewrite Forall_forall in Hnofail. by apply (Hnofail item Hin).
  - intros Hnone. rewrite Forall_forall in Hnone. rewrite <- Hcode.
    apply Hpass.
    + rewrite Hone. intros (item & Hin & Hitem).
      specialize (Hnone item Hin). congruence.
    + rewrite Hthree. intros (item & Hin & Hitem).
      specialize (Hnone item Hin). congruence.
Qed.

Lemma executor_aggregates_executed_checks_witness :
  let A := Sample.check "A" Sample.failing in
  let B := Sample.check "B" Sample.warning in
  let e := Sample.executor (execute_item <$> [A; B]) in
  Executor.pre_condition Sample.satisfied e = Returned tt /\
  Forall (fun x => InfraTest.exit_code (InfraTest.attrs x) = 0) [A; B] /\
  Executor.exit_code (state_of (Executor.execute Sample.satisfied e)) = 1.
Proof.
  intros A B e.
  assert (Hzero : Forall (fun x => InfraTest.exit_code (InfraTest.attrs x) = 0)
                    [A; B]) by (repeat constructor).
  split; [reflexivity|]. split; [exact Hzero|].
  apply (executor_aggregates_executed_checks Sample.satisfied e [A; B]
           eq_refl eq_refl Hzero eq_refl).
  exists A. split; [by left|reflexivity].
Defined.

(** X17: as long as no check fails or raises, the two kinds of group
    agree: [Stage.execute] over a list of checks returns the exit code an
    executor ends with after each of these checks has been executed. *)
Theorem stage_and_executor_agree_without_failure (cls : Executor.Class)
    (self : Executor.t) (stage : Stage.t)
    (items : list InfraTest.instance) :
  Executor.pre_condition cls self = Returned tt ->
  Executor.infra_tests self = execute_item <$> items ->
  Stage.infra_tests stage = items ->
  Forall (fun x => InfraTest.exit_code (InfraTest.attrs x) = 0) items ->
  Executor.exit_code self = 0 ->
  Forall (fun x => assigned x <> Some 1) items ->
  outcome_of (Stage.execute stage)
  = Returned (Executor.exit_code (state_of (Executor.execute cls self))).
Proof.
  intros Hpre Htests Hstage Hzero Hcode Hnofail.
  destruct (executor_aggregation cls self Hpre)
    as (_ & _ & _ & Hwarn & Hpass).
  rewrite Htests in Hwarn, Hpass.
  pose proof (executed_codes items 1 Hzero ltac:(done)) as Hone.
  pose proof (executed_codes items 3 Hzero ltac:(done)) as Hthree.
  assert (Hnot1 : 1 ∉ (fun x => InfraTest.exit_code (InfraTest.attrs x))
                        <$> (execute_item <$> items)).
  { rewrite Hone. intros (item & Hin & Hitem).
    rewrite Forall_forall in Hnofail. by apply (Hnofail item Hin). }
  destruct (stage_execute_effects stage) as (items' & tr & -> & _).
  unfold outcome_of. simpl. rewrite Hstage. f_equal.
  destruct (last_assigned_cases 0 items)
    as [[-> Hnone]|(before & item & after & Hitems & Hitem & _)].
  - rewrite Forall_forall in Hnone.
    rewrite (proj1 (Hpass Hnot1 ltac:(rewrite Hthree;
               intros (item & Hin & Hitem);
               specialize (Hnone item Hin); congruence))).
    done.
  - assert (Hin : item ∈ items)
      by (rewrite Hitems, elem_of_app, elem_of_cons; auto).
    rewrite Forall_forall in Hnofail. specialize (Hnofail item Hin).
    destruct (assigned_values item) as [H|[H|H]]; [congruence..|].
    assert (Hlast : last_assigned 0 items = 3) by congruence.
    rewrite Hlast. symmetry. apply Hwarn; [done|].
    rewrite Hthree. eauto.
Qed.

Lemma stage_and_executor_agree_without_failure_witness :
  let A := Sample.check "A" Sample.warning in
  let B := Sample.check "B" Sample.passing in
  let e := Sample.executor (execute_item <$> [A; B]) in
  Forall (fun x => assigned x <> Some 1) [A; B] /\
  outcome_of (Stage.execute (Sample.stage [A; B]))
  = Returned
      (Executor.exit_code (state_of (Executor.execute Sample.satisfied e))).
Proof.
  intros A B e.
  assert (Hnofail : Forall (fun x => assigned x <> Some 1) [A; B])
    by (repeat constructor; discriminate).
  split; [exact Hnofail|].
  apply (stage_and_executor_agree_without_failure Sample.satisfied e
           (Sample.stage [A; B]) [A; B] eq_refl eq_refl eq_refl);
    [repeat constructor|reflexivity|exact Hnofail].
Defined.

(** X18: a group without checks passes: [Stage.execute] on a stage whose
    [register_tests] registers nothing returns 0, dumps the empty list and
    calls no method; an executor with no registered check ends with result
    [pass], an empty [reports] list and the exit code it had. *)
Theorem empty_groups_pass (cls : Executor.Class) (self : Executor.t)
    (stage : Stage.t) :
  (Stage.infra_tests stage = [] ->
   outcome_of (Stage.execute stage) = Returned 0 /\
   Stage.dumped (trace_of (Stage.execute stage)) = Some [] /\
   calls run_method (trace_of (Stage.execute stage)) = 0%nat) /\
  (Executor.infra_tests self = [] ->
   Executor.pre_condition cls self = Returned tt ->
   let x := Executor.execute cls self in
   outcome_of x = Returned tt /\
   Executor.exit_code (state_of x) = Executor.exit_code self /\
   Executor.report (state_of x) !! "result" = Some (VStr "pass") /\
   Executor.report (state_of x) !! "reports" = Some (VReports [])).
Proof.
  split.
  - intros Hempty. unfold Stage.execute. rewrite Hempty. by cbn.
  - intros Hempty Hpre. unfold_E. simpl. rewrite Hpre. simpl.
    rewrite Hempty. simpl.
    repeat case_decide; try (by set_solver); simpl;
      repeat split; by simplify_map_eq.
Qed.

Lemma empty_groups_pass_witness :
  Stage.infra_tests (Sample.stage []) = [] /\
  outcome_of (Stage.execute (Sample.stage [])) = Returned 0 /\
  Executor.infra_tests (registered "site" []) = [] /\
  Executor.report
    (state_of (Executor.execute Sample.satisfied (registered "site" [])))
    !! "result" = Some (VStr "pass").
Proof.
  split; [reflexivity|]. split.
  - apply (proj1 (empty_groups_pass Sample.satisfied (registered "site" [])
                    (Sample.stage [])) eq_refl).
  - split; [reflexivity|].
    apply (proj2 (empty_groups_pass Sample.satisfied (registered "site" [])
                    (Sample.stage [])) eq_refl eq_refl).
Defined.

(** ** The pool *)

Lemma define_effect (d : Kind * string) (p : Pool.t) :
  outcome_of (define d p) = Returned tt /\
  Pool.tests (state_of (define d p))
  = Pool.tests p ++ names_of test_class [d] /\
  Pool.stages (state_of (define d p))
  = Pool.stages p ++ names_of stage_class [d].
Proof.
  destruct d as [[] name]; cbn; by rewrite app_nil_r.
Qed.

Lemma names_of_cons (k : Kind) (d : Kind * string) ds :
  names_of k (d :: ds) = names_of k [d] ++ names_of k ds.
Proof. destruct k, d as [[] name]; reflexivity. Qed.

Lemma define_all_effect (ds : list (Kind * string)) :
  forall p : Pool.t,
  outcome_of (define_all ds p) = Returned tt /\
  Pool.tests (state_of (define_all ds p))
  = Pool.tests p ++ names_of test_class ds /\
  Pool.stages (state_of (define_all ds p))
  = Pool.stages p ++ names_of stage_class ds.
Proof.
  induction ds as [|d ds IH]; intros p.
  - cbn. by rewrite !app_nil_r.
  - destruct (define_effect d p) as (Hout & Htests & Hstages).
    specialize (IH (state_of (define d p))).
    destruct IH as (IHout & IHtests & IHstages).
    cbn [define_all]. unfold bind.
    destruct (define d p) as [[r p1] tr1].
    unfold outcome_of, state_of in *. cbn [fst snd] in *. subst r.
    destruct (define_all ds p1) as [[r2 p2] tr2]. cbn [fst snd] in *.
    rewrite IHtests, IHstages, Htests, Hstages, !(names_of_cons _ d ds).
    by rewrite <- !app_assoc.
Qed.

(** X19: defining classes registers them and nothing else: after the class
    definitions [ds], met in this order, the pool lists the names of the
    test classes after the tests it had, and the names of the stage classes
    after the stages it had, each in definition order; no entry is dropped
    or reordered, a name defined twice is listed twice, and no definition
    raises. *)
Theorem definitions_fill_the_pool (ds : list (Kind * string)) (p : Pool.t) :
  let x := define_all ds p in
  outcome_of x = Returned tt /\
  Pool.tests (state_of x) = Pool.tests p ++ names_of test_class ds /\
  Pool.stages (state_of x) = Pool.stages p ++ names_of stage_class ds /\
  (length (Pool.tests (state_of x)) + length (Pool.stages (state_of x))
   = length (Pool.tests p) + length (Pool.stages p) + length ds)%nat.
Proof.
  destruct (define_all_effect ds p) as (Hout & Htests & Hstages).
  split; [done|]. split; [done|]. split; [done|].
  rewrite Htests, Hstages, !length_app. unfold names_of.
  rewrite !length_fmap.
  assert (Hsplit : forall l : list (Kind * string),
            (length (List.filter
               (fun d => match d.1 with test_class => true | _ => false end) l)
             + length (List.filter
               (fun d => match d.1 with stage_class => true | _ => false end)
               l))%nat = length l).
  { induction l as [|[[] name] l IHl]; simpl; lia. }
  specialize (Hsplit ds). lia.
Qed.

(** X20: what is registered can be listed: after the class definitions
    [ds] in a fresh pool, [get_all_tests] returns the names of the test
    classes and [get_all_stages] those of the stage classes, in definition
    order, and neither changes the pool or logs anything. *)
Theorem pool_lists_what_was_defined (ds : list (Kind * string)) :
  let p := state_of (define_all ds Pool.initial) in
  Pool.get_all_tests p = (Returned (names_of test_class ds), p, []) /\
  Pool.get_all_stages p = (Returned (names_of stage_class ds), p, []).
Proof.
  destruct (define_all_effect ds Pool.initial)
    as (_ & Htests & Hstages).
  cbn. unfold Pool.get_all_tests, Pool.get_all_stages, bind, get, ret.
  cbn. by rewrite Htests, Hstages.
Qed.
